(** * efficient-atom: the Transition1x preprocessing script and the
      EquiformerV2 backbone

    A shallow embedding of

      - [src/jmp/datasets/scripts/transition1x_preprocess/trans1x_linear_ref.py]
        (module [Trans1xLinearRef] below), and
      - the constructor and the [forward] method of [EquiformerV2Backbone] in
        [src/jmp/models/equiformer_v2/equiformer_v2.py]
        (module [EquiformerV2Backbone] below).

    Conventions.

      - Python exceptions are values of [exn]; a computation that may raise
        returns a [result].  Code that also prints, logs, writes files or
        builds framework objects runs in the monad [M], which records these
        effects, in program order, in a trace.
      - Atomic numbers are natural numbers (the tensors hold them as int64;
        an atomic number is never negative).
      - The script's floating-point quantities (energies, forces, statistics,
        regression coefficients) are real numbers: float64 rounding is not
        part of the model, and numpy's [nan] is the value [NaN].
      - Functions of the libraries the code calls (torch, torch_scatter,
        numpy, multiprocess, argparse) are given their documented behaviour;
        what is not determined by the documentation alone (the least-squares
        solver, the LMDB dataset behind a path, the scheduling of the worker
        processes, the framework's layer constructors) is a parameter. *)

From Stdlib Require Import Floats.
From Stdlib Require Import String Ascii DecimalString.
From Stdlib Require Import List Arith ZArith Lia Bool Permutation.
From Stdlib Require Import Reals Lra.
Import ListNotations.

Set Implicit Arguments.

(** ** Exceptions, results and the effect monad *)

(** The exception classes the two files can raise or let through.
    [Library c] is an exception of class [c] raised inside a library call
    (torch, numpy, multiprocess, argparse, the dataset class); the other
    constructors are raised by statements of the two source files. *)
Inductive exn : Type :=
| ImportError
| AssertionError (msg : string)
| ValueError
| AttributeError (attr : string)
| IndexError
| Library (cls : string).

Inductive result (A : Type) : Type :=
| Ok (a : A)
| Err (e : exn).
Arguments Ok {A} a.
Arguments Err {A} e.

Definition result_bind {A B} (r : result A) (k : A -> result B) : result B :=
  match r with
  | Ok a => k a
  | Err e => Err e
  end.

(** [sequence rs]: the values of [rs] in order, or the first exception. *)
Fixpoint sequence {A} (rs : list (result A)) : result (list A) :=
  match rs with
  | [] => Ok []
  | r :: rs' =>
      result_bind r (fun a => result_bind (sequence rs') (fun l => Ok (a :: l)))
  end.

(** A computation with effects: the trace of events it performed, and the
    value it returned or the exception that ended it. *)
Definition M (Ev A : Type) : Type := list Ev * result A.

Definition ret {Ev A} (a : A) : M Ev A := ([], Ok a).

Definition bind {Ev A B} (m : M Ev A) (k : A -> M Ev B) : M Ev B :=
  match m with
  | (t, Ok a) => let (t', r) := k a in (t ++ t', r)
  | (t, Err e) => (t, Err e)
  end.

Definition raise {Ev A} (e : exn) : M Ev A := ([], Err e).
Definition emit {Ev} (ev : Ev) : M Ev unit := ([ev], Ok tt).
Definition lift {Ev A} (r : result A) : M Ev A := ([], r).

Definition trace_of {Ev A} (m : M Ev A) : list Ev := fst m.
Definition outcome {Ev A} (m : M Ev A) : result A := snd m.

Declare Scope eff_scope.
Delimit Scope eff_scope with eff.
Notation "x <- m ;; k" := (bind m (fun x => k))
  (at level 61, m at next level, right associativity) : eff_scope.
Notation "m ;; k" := (bind m (fun _ => k))
  (at level 61, right associativity) : eff_scope.
Notation "x <-? r ;; k" := (result_bind r (fun x => k))
  (at level 61, r at next level, right associativity) : eff_scope.

Local Open Scope string_scope.
Local Open Scope list_scope.
Local Open Scope nat_scope.
Local Open Scope eff_scope.

(** ** torch_scatter *)

(** [torch.ones(n)]: the values are whole numbers and stay so under the sums
    taken here, so the tensor is a list of integers. *)
Definition torch_ones (n : nat) : list Z := repeat 1%Z n.

(** [list_set out i v]: [out] with position [i] (in range) replaced. *)
Fixpoint list_set {A} (out : list A) (i : nat) (v : A) : list A :=
  match out, i with
  | [], _ => []
  | _ :: out', O => v :: out'
  | a :: out', S i' => a :: list_set out' i' v
  end.

(** [out.scatter_add_(0, index, src)]: for each position [k],
    [out[index[k]] += src[k]]; an index outside [out] raises a RuntimeError
    inside torch. *)
Fixpoint scatter_add_ (out : list Z) (index : list nat) (src : list Z)
  : result (list Z) :=
  match index, src with
  | [], _ => Ok out
  | _ :: _, [] => Err (Library "RuntimeError")
  | i :: index', s :: src' =>
      if i <? length out
      then scatter_add_ (list_set out i (nth i out 0 + s)%Z) index' src'
      else Err (Library "RuntimeError")
  end.

(** [torch_scatter.scatter(src, index, dim_size=dim_size)] with the default
    reduction ("sum"): scatter-add into a zero tensor of [dim_size] entries. *)
Definition scatter (src : list Z) (index : list nat) (dim_size : nat)
  : result (list Z) :=
  scatter_add_ (repeat 0%Z dim_size) index src.

(** ** multiprocess: the worker pool *)

(** The state of a pool that is working through an [imap]:
    [tasks] are the indices not yet handed to a worker (in submission
    order), [running] the indices some worker is computing, [finished] the
    results that came back, in order of arrival, each with its index, and
    [calls] the indices the function was called on so far, in call order. *)
Record pool_state (B : Type) : Type := {
  tasks : list nat;
  running : list nat;
  finished : list (nat * B);
  calls : list nat
}.

Section Pool.
Context {B : Type}.
Variable processes : nat.
Variable func : nat -> B.

(** [remove_nth j l]: [l] without its [j]-th entry. *)
Definition remove_nth (j : nat) (l : list nat) : list nat :=
  firstn j l ++ skipn (S j) l.

Definition can_dispatch (s : pool_state B) : bool :=
  match tasks s with
  | [] => false
  | _ :: _ => length (running s) <? processes
  end.

(** An idle worker takes the next task from the queue and calls [func]. *)
Definition dispatch (s : pool_state B) : pool_state B :=
  match tasks s with
  | [] => s
  | i :: rest =>
      {| tasks := rest; running := running s ++ [i];
         finished := finished s; calls := calls s ++ [i] |}
  end.

(** The worker computing the [j]-th running task sends its result back. *)
Definition complete (j : nat) (s : pool_state B) : pool_state B :=
  let i := nth j (running s) 0 in
  {| tasks := tasks s; running := remove_nth j (running s);
     finished := finished s ++ [(i, func i)]; calls := calls s |}.

(** One scheduling decision.  The actions enabled in [s] are numbered:
    the dispatch (when enabled) is action 0, followed by the completion of
    each running task; [choice] picks one of them. *)
Definition pool_step (choice : nat) (s : pool_state B) : pool_state B :=
  let enabled := (if can_dispatch s then 1 else 0) + length (running s) in
  match enabled with
  | 0 => s
  | S _ =>
      let k := choice mod enabled in
      if can_dispatch s
      then match k with
           | 0 => dispatch s
           | S j => complete j s
           end
      else complete k s
  end.

(** [steps] scheduling decisions, the [t]-th one taken from [sched t]. *)
Fixpoint pool_run (sched : nat -> nat) (t steps : nat) (s : pool_state B)
  : pool_state B :=
  match steps with
  | 0 => s
  | S steps' => pool_run sched (S t) steps' (pool_step (sched t) s)
  end.

Definition pool_idle (s : pool_state B) : bool :=
  match tasks s, running s with
  | [], [] => true
  | _, _ => false
  end.

(** The result that came back for index [i], if any. *)
Definition result_for (i : nat) (s : pool_state B) : option B :=
  option_map snd (find (fun p => fst p =? i) (finished s)).

(** The pool after [imap(func, indices)] ran to the end under [sched]:
    every task takes two decisions, its dispatch and its completion. *)
Definition imap_final (sched : nat -> nat) (indices : list nat)
  : pool_state B :=
  pool_run sched 0 (2 * length indices)
    {| tasks := indices; running := []; finished := []; calls := [] |}.

(** [list(pool.imap(func, indices))]: the iterator hands out the results
    in the order of [indices], whatever order they arrived in.  [None]
    stands for a result that never arrives (the consumer would block). *)
Definition imap (sched : nat -> nat) (indices : list nat)
  : list (option B) :=
  map (fun i => result_for i (imap_final sched indices)) indices.
End Pool.

(** ** numpy on real numbers *)

(** A float64 scalar: a real number, or [nan]. *)
Inductive npfloat : Type :=
| Fin (x : R)
| NaN.

(** A force vector: one row of a [(n_atoms, 3)] array. *)
Definition Vec3 : Type := (R * R * R)%type.

(** The arrays the script builds: a scalar (0-d), a 1-d array, or a 2-d
    array with three columns. *)
Inductive ndarray : Type :=
| Scalar (x : R)
| Vector (xs : list R)
| Matrix (rows : list Vec3).

Definition row_entries (v : Vec3) : list R :=
  let '(a, b, c) := v in [a; b; c].

(** All entries of an array, row by row ([a.ravel()]). *)
Definition entries (a : ndarray) : list R :=
  match a with
  | Scalar x => [x]
  | Vector xs => xs
  | Matrix rows => flat_map row_entries rows
  end.

Definition Rsum (xs : list R) : R := fold_right Rplus 0%R xs.

(** [np.array(rows)] for a list of 3-vectors: an [(N, 3)] array, and the
    empty 1-d array (shape [(0,)]) when the list is empty. *)
Definition np_array (rows : list Vec3) : ndarray :=
  match rows with
  | [] => Vector []
  | _ :: _ => Matrix rows
  end.

(** [np.mean(xs)] of a flat list of numbers: [nan] when there are none. *)
Definition mean_of (xs : list R) : npfloat :=
  match xs with
  | [] => NaN
  | _ :: _ => Fin (Rsum xs / INR (length xs))
  end.

(** [np.mean(a)] with no axis: the mean of all the entries. *)
Definition np_mean (a : ndarray) : npfloat := mean_of (entries a).

(** [np.square(a)], entry by entry. *)
Definition np_square (a : ndarray) : ndarray :=
  match a with
  | Scalar x => Scalar (x * x)
  | Vector xs => Vector (map (fun x => x * x)%R xs)
  | Matrix rows =>
      Matrix (map (fun '(a, b, c) => (a * a, b * b, c * c)%R) rows)
  end.

(** [np.sqrt(x)] of a scalar: [nan] for [nan] and for negative numbers. *)
Definition np_sqrt (x : npfloat) : npfloat :=
  match x with
  | NaN => NaN
  | Fin r => if Rlt_dec r 0 then NaN else Fin (sqrt r)
  end.

(** [np.std(xs)] with the default [ddof=0]:
    [sqrt(mean(abs(x - x.mean())**2))]. *)
Definition np_std (xs : list R) : npfloat :=
  match mean_of xs with
  | NaN => NaN
  | Fin m => np_sqrt (mean_of (map (fun x => Rabs (x - m) * Rabs (x - m))%R xs))
  end.

(** The 2-norm of a list of numbers. *)
Definition norm2 (xs : list R) : R :=
  sqrt (Rsum (map (fun x => x * x)%R xs)).

(** [np.linalg.norm(a, axis=-1)]: the 2-norm along the last axis. *)
Definition np_linalg_norm_last_axis (a : ndarray) : ndarray :=
  match a with
  | Scalar x => Scalar (Rabs x)
  | Vector xs => Scalar (norm2 xs)
  | Matrix rows => Vector (map (fun v => norm2 (row_entries v)) rows)
  end.

(** [np.vstack(rows)] of 1-d integer arrays: the 2-d array with these rows;
    numpy raises a ValueError when the list is empty or the rows differ in
    length. *)
Definition np_vstack (rows : list (list Z)) : result (list (list Z)) :=
  match rows with
  | [] => Err (Library "ValueError")
  | r :: rest =>
      if forallb (fun r' => length r' =? length r) rest
      then Ok rows
      else Err (Library "ValueError")
  end.

(** ** The least-squares problem *)



Definition ncols (X : list (list Z)) : nat := length (hd [] X).


(** Work left in a pool: two decisions for a queued task, one for a running
    one. *)
Definition work_left {B} (s : pool_state B) : nat :=
  2 * length (tasks s) + length (running s).

(** What holds of the pool while it maps [func] over [indices]: every
    result that came back is the function's, every index is queued, running
    or finished, and the calls made so far are the indices taken from the
    queue. *)
Record pool_inv {B} (func : nat -> B) (indices : list nat)
    (s : pool_state B) : Prop := {
  inv_results : Forall (fun p => snd p = func (fst p)) (finished s);
  inv_accounted :
    Permutation (map fst (finished s) ++ running s ++ tasks s) indices;
  inv_calls : calls s ++ tasks s = indices
}.

(** * The preprocessing script *)

Module Trans1xLinearRef.

(** One entry of the dataset: what [dataset()[idx]] returns, as far as the
    script reads it. *)
Record Data : Type := {
  atomic_numbers : list nat;
  y : R;
  force : list Vec3
}.

(** The two functions the subparsers are bound to with [set_defaults]. *)
Inductive handler : Type :=
| fn_compute_mean_std
| fn_linref.

(** The values a [Namespace] attribute holds. *)
Inductive value : Type :=
| VNone
| VStr (s : string)
| VPath (p : string)
| VInt (n : Z)
| VFn (f : handler).

Definition Namespace : Type := list (string * value).

Fixpoint lookup (ns : Namespace) (name : string) : option value :=
  match ns with
  | [] => None
  | (k, v) :: ns' => if String.eqb k name then Some v else lookup ns' name
  end.

(** [setattr(ns, name, v)] *)
Fixpoint setattr (ns : Namespace) (name : string) (v : value) : Namespace :=
  match ns with
  | [] => [(name, v)]
  | (k, v') :: ns' =>
      if String.eqb k name then (k, v) :: ns' else (k, v') :: setattr ns' name v
  end.

(** [ns.name] *)
Definition getattr (ns : Namespace) (name : string) : result value :=
  match lookup ns name with
  | Some v => Ok v
  | None => Err (AttributeError name)
  end.

(** A piece of a printed line: literal text, a formatted number, or a
    formatted attribute. *)
Inductive fragment : Type :=
| Lit (s : string)
| Num (x : npfloat)
| Obj (v : value).

(** What a run of the script does to the outside: it starts worker
    processes, prints, and writes files. *)
Inductive event : Type :=
| PoolCreated (workers : nat)
| Print (line : list fragment)
| PickleDump (file : string) (obj : list (string * npfloat))
| SavezCompressed (file : string) (arrays : list (string * list R)).

(** What the script finds on the machine it runs on: the number of CPU
    cores, the dataset [PretrainLmdbDataset(PretrainDatasetConfig(...))]
    opens for each list of keyword arguments (or the exception it raises),
    and the scheduling decisions of the worker pool. *)
Record World : Type := {
  cpu_count : nat;
  PretrainLmdbDataset : list (string * value) -> result (list Data);
  schedule : nat -> nat
}.

(** [mp.Pool(processes)]: [processes] worker processes; the number of CPU
    cores when [processes] is [None]; a ValueError when it is below 1. *)
Definition Pool (w : World) (processes : value) : M event nat :=
  match processes with
  | VNone => emit (PoolCreated (cpu_count w)) ;; ret (cpu_count w)
  | VInt n =>
      if (n <? 1)%Z then lift (Err (Library "ValueError"))
      else emit (PoolCreated (Z.to_nat n)) ;; ret (Z.to_nat n)
  | _ => lift (Err (Library "TypeError"))
  end.

(** [list(tqdm(pool.imap(func, indices), total=len(indices)))]: the results
    in the order of [indices]; the first exception a call raised, in that
    order, is raised again in the parent.  [Library "blocked"] stands for
    waiting on a result that never arrives.  ([tqdm] only draws a progress
    bar.) *)
Definition imap_list {C} (w : World) (pool : nat) (func : nat -> result C)
    (indices : list nat) : result (list C) :=
  sequence
    (map (fun r => match r with
                   | Some r' => r'
                   | None => Err (Library "blocked")
                   end)
         (imap pool func (schedule w) indices)).

(** [open(file, "wb")] and the file argument of [np.savez_compressed]: a
    path is needed. *)
Definition as_file (v : value) : result string :=
  match v with
  | VPath p => Ok p
  | VStr p => Ok p
  | _ => Err (Library "TypeError")
  end.

(** [dataset()[idx]] *)
Definition getitem (ds : list Data) (idx : nat) : result Data :=
  match nth_error ds idx with
  | Some d => Ok d
  | None => Err IndexError
  end.

(** The forces of all samples, one row per atom:
    [[force for y, forces in outputs for force in forces]]. *)
Definition all_forces (outputs : list (R * list Vec3)) : list Vec3 :=
  flat_map snd outputs.

(** The closures of [_compute_mean_std]: the cached [dataset()] and
    [extract_data(idx)]. *)
Module compute_mean_std.

Definition dataset (w : World) (args : Namespace) : result (list Data) :=
  src <-? getattr args "src" ;;
  linref_path <-? getattr args "linref_path" ;;
  PretrainLmdbDataset w [("src", src); ("lin_ref", linref_path)].

Definition extract_data (w : World) (args : Namespace) (idx : nat)
  : result (R * list Vec3) :=
  ds <-? dataset w args ;;
  data <-? getitem ds idx ;;
  let y := y data in
  let f := force data in
  Ok (y, f).

End compute_mean_std.

Definition _compute_mean_std (w : World) (args : Namespace) : M event unit :=
  num_workers <- lift (getattr args "num_workers") ;;
  pool <- Pool w num_workers ;;
  ds <- lift (compute_mean_std.dataset w args) ;;
  let indices := seq 0 (length ds) in

  outputs <- lift (imap_list w pool (compute_mean_std.extract_data w args)
                     indices) ;;

  let energies := map fst outputs in
  let forces := np_array (all_forces outputs) in

  let energy_mean := mean_of energies in
  let energy_std := np_std energies in
  let force_rms := np_sqrt (np_mean (np_square forces)) in
  let force_md := np_mean (np_linalg_norm_last_axis forces) in

  emit (Print [Lit "energy_mean: "; Num energy_mean;
               Lit ", energy_std: "; Num energy_std;
               Lit ", force_rms: "; Num force_rms;
               Lit ", force_md: "; Num force_md]) ;;

  out_path <- lift (getattr args "out_path") ;;
  f <- lift (as_file out_path) ;;
  emit (PickleDump f [("energy_mean", energy_mean);
                      ("energy_std", energy_std);
                      ("force_rms", force_rms);
                      ("force_md", force_md)]).

(** The closures of [_linref]. *)
Module linref.

Definition dataset (w : World) (args : Namespace) : result (list Data) :=
  src <-? getattr args "src" ;;
  PretrainLmdbDataset w [("src", src)].

Definition extract_data (w : World) (args : Namespace) (idx : nat)
  : result (list Z * R * list Vec3) :=
  ds <-? dataset w args ;;
  data <-? getitem ds idx ;;
  x <-? scatter (torch_ones (length (atomic_numbers data)))
                (atomic_numbers data) 10 ;;
  let y := y data in
  let f := force data in
  Ok (x, y, f).

End linref.

Section Linref.
(** [np.linalg.lstsq(X, y, rcond=None)[0]], or the class of the exception
    numpy raises (a LinAlgError when the computation does not converge). *)
Variable np_linalg_lstsq : list (list Z) -> list R -> list R + string.

Definition _linref (w : World) (args : Namespace) : M event unit :=
  num_workers <- lift (getattr args "num_workers") ;;
  pool <- Pool w num_workers ;;
  ds <- lift (linref.dataset w args) ;;
  let indices := seq 0 (length ds) in

  outputs <- lift (imap_list w pool (linref.extract_data w args) indices) ;;

  let features := map (fun x => fst (fst x)) outputs in
  let targets := map (fun x => snd (fst x)) outputs in

  X <- lift (np_vstack features) ;;
  let y := targets in

  coeff <- lift (match np_linalg_lstsq X y with
                 | inl coeff => Ok coeff
                 | inr cls => Err (Library cls)
                 end) ;;
  out_path <- lift (getattr args "out_path") ;;
  file <- lift (as_file out_path) ;;
  emit (SavezCompressed file [("coeff", coeff)]) ;;
  emit (Print [Lit "Saved linear reference coefficients to "; Obj out_path]).
End Linref.

(** ** argparse *)

(** The command lines modelled are those of the form
    [<subcommand> (--flag value)*] with every flag spelled out; for them
    [parse_args] is what argparse does.  Other command lines are reported as
    rejected ([SystemExit]); argparse rejects most of them too, and accepts
    abbreviated flags, [--flag=value] and a few more literal forms. *)
















Section Main.
Variable np_linalg_lstsq : list (list Z) -> list R -> list R + string.



End Main.

End Trans1xLinearRef.

(** * The EquiformerV2 backbone *)

Module EquiformerV2Backbone.

(** Statistics of IS2RE 100K *)
#[warnings="-inexact-float"]
Definition _AVG_NUM_NODES : float := 77.81317%float.
#[warnings="-inexact-float"]
Definition _AVG_DEGREE : float := 23.395238876342773%float.

(** The keyword arguments of a call [EquiformerV2Backbone(...)]: [None] is
    an argument the call leaves out.  An argument declared [T | None] that
    is passed holds [Some None] for Python's [None]. *)
Record kwargs : Type := {
  kw_use_pbc : option bool;
  kw_use_pbc_single : option bool;
  kw_regress_forces : option bool;
  kw_otf_graph : option bool;
  kw_max_neighbors : option Z;
  kw_max_radius : option float;
  kw_max_num_elements : option Z;
  kw_num_layers : option Z;
  kw_sphere_channels : option Z;
  kw_attn_hidden_channels : option Z;
  kw_num_heads : option Z;
  kw_attn_alpha_channels : option Z;
  kw_attn_value_channels : option Z;
  kw_ffn_hidden_channels : option Z;
  kw_norm_type : option string;
  kw_lmax_list : option (option (list Z));
  kw_mmax_list : option (option (list Z));
  kw_grid_resolution : option (option Z);
  kw_num_sphere_samples : option Z;
  kw_edge_channels : option Z;
  kw_use_atom_edge_embedding : option bool;
  kw_share_atom_edge_embedding : option bool;
  kw_use_m_share_rad : option bool;
  kw_distance_function : option string;
  kw_num_distance_basis : option Z;
  kw_attn_activation : option string;
  kw_use_s2_act_attn : option bool;
  kw_use_attn_renorm : option bool;
  kw_ffn_activation : option string;
  kw_use_gate_act : option bool;
  kw_use_grid_mlp : option bool;
  kw_use_sep_s2_act : option bool;
  kw_alpha_drop : option float;
  kw_drop_path_rate : option float;
  kw_proj_drop : option float;
  kw_weight_init : option string;
  kw_enforce_max_neighbors_strictly : option bool;
  kw_avg_num_nodes : option (option float);
  kw_avg_degree : option (option float);
  kw_use_energy_lin_ref : option (option bool);
  kw_load_energy_lin_ref : option (option bool);
  kw_activation_checkpoint : option (option bool)
}.

(** The call with no argument at all. *)
Definition no_kwargs : kwargs :=
  Build_kwargs None None None None None None None None None None None None
    None None None None None None None None None None None None None None
    None None None None None None None None None None None None None None
    None None.

(** The attributes [__init__] sets on [self] before it builds the layers. *)
Record Self : Type := {
  activation_checkpoint : option bool;
  use_pbc : bool;
  use_pbc_single : bool;
  regress_forces : bool;
  otf_graph : bool;
  max_neighbors : Z;
  max_radius : float;
  cutoff : float;
  max_num_elements : Z;
  num_layers : Z;
  sphere_channels : Z;
  attn_hidden_channels : Z;
  num_heads : Z;
  attn_alpha_channels : Z;
  attn_value_channels : Z;
  ffn_hidden_channels : Z;
  norm_type : string;
  lmax_list : list Z;
  mmax_list : list Z;
  grid_resolution : option Z;
  num_sphere_samples : Z;
  edge_channels : Z;
  use_atom_edge_embedding : bool;
  share_atom_edge_embedding : bool;
  block_use_atom_edge_embedding : bool;
  use_m_share_rad : bool;
  distance_function : string;
  num_distance_basis : Z;
  attn_activation : string;
  use_s2_act_attn : bool;
  use_attn_renorm : bool;
  ffn_activation : string;
  use_gate_act : bool;
  use_grid_mlp : bool;
  use_sep_s2_act : bool;
  alpha_drop : float;
  drop_path_rate : float;
  proj_drop : float;
  avg_num_nodes : float;
  avg_degree : float;
  use_energy_lin_ref : option bool;
  load_energy_lin_ref : option bool;
  weight_init : string;
  enforce_max_neighbors_strictly : bool;
  device : string;
  grad_forces : bool;
  num_resolutions : Z;
  sphere_channels_all : Z
}.

(** The framework objects the constructor builds.  [Layers] stands for
    everything built after the distance expansion: the shared atom edge
    embeddings, the SO3 rotations, the coefficient mapping, the SO3 grids,
    the edge-degree embedding, the transformer blocks, the final
    normalization, the linear-reference parameter and the weight
    initialisation. *)
Inductive component : Type :=
| nn_Embedding (num_embeddings embedding_dim : Z)
| GaussianSmearing (start stop : float) (num_gaussians : Z)
    (basis_width_scalar : float)
| Layers.

(** What a call of the constructor or of [forward] does besides computing
    its result. *)
Inductive event : Type :=
| Module_init
| LoggingError (msg : string)
| Constructed (c : component)
| Print (msg : string).

(** The interpreter and framework the class runs in: the names of the
    imported modules ([sys.modules]), and for each framework object the
    class of the exception its constructor raises, if it raises. *)
Record Runtime : Type := {
  sys_modules : list string;
  raises : component -> option string
}.

Definition construct (rt : Runtime) (c : component) : M event unit :=
  match raises rt c with
  | Some cls => lift (Err (Library cls))
  | None => emit (Constructed c)
  end.

(** [assert cond, msg] *)
Definition assert_ (cond : bool) (msg : string) : M event unit :=
  if cond then ret tt else raise (AssertionError msg).

(** The value of a parameter: the one passed, or the declared default. *)
Definition param {A} (passed : option A) (default : A) : A :=
  match passed with
  | Some v => v
  | None => default
  end.

(** Truth value of a [bool | None]. *)
Definition truthy (b : option bool) : bool :=
  match b with
  | Some true => true
  | _ => false
  end.

(** [x or d] for a [float | None]: [None] and zero are false. *)
Definition float_or (x : option float) (d : float) : float :=
  match x with
  | None => d
  | Some v => if (v =? 0)%float then d else v
  end.

(** [s in l] for strings. *)
Definition str_in (s : string) (l : list string) : bool :=
  existsb (String.eqb s) l.

Definition lin_ref_message : string :=
  "You can't have use_energy_lin_ref = True and load_energy_lin_ref = False, since the model will not have the parameters for the linear references. All other combinations are fine.".

#[warnings="-inexact-float"]
Definition __init__ (rt : Runtime) (kw : kwargs) : M event Self :=
  let use_pbc := param (kw_use_pbc kw) true in
  let use_pbc_single := param (kw_use_pbc_single kw) false in
  let regress_forces := param (kw_regress_forces kw) true in
  let otf_graph := param (kw_otf_graph kw) true in
  let max_neighbors := param (kw_max_neighbors kw) 20%Z in
  let max_radius := param (kw_max_radius kw) 12.0%float in
  let max_num_elements := param (kw_max_num_elements kw) 90%Z in
  let num_layers := param (kw_num_layers kw) 8%Z in
  let sphere_channels := param (kw_sphere_channels kw) 128%Z in
  let attn_hidden_channels := param (kw_attn_hidden_channels kw) 64%Z in
  let num_heads := param (kw_num_heads kw) 8%Z in
  let attn_alpha_channels := param (kw_attn_alpha_channels kw) 64%Z in
  let attn_value_channels := param (kw_attn_value_channels kw) 16%Z in
  let ffn_hidden_channels := param (kw_ffn_hidden_channels kw) 128%Z in
  let norm_type := param (kw_norm_type kw) "layer_norm_sh" in
  let lmax_list := param (kw_lmax_list kw) (Some [4%Z]) in
  let mmax_list := param (kw_mmax_list kw) (Some [2%Z]) in
  let grid_resolution := param (kw_grid_resolution kw) (Some 18%Z) in
  let num_sphere_samples := param (kw_num_sphere_samples kw) 128%Z in
  let edge_channels := param (kw_edge_channels kw) 128%Z in
  let use_atom_edge_embedding := param (kw_use_atom_edge_embedding kw) true in
  let share_atom_edge_embedding :=
    param (kw_share_atom_edge_embedding kw) false in
  let use_m_share_rad := param (kw_use_m_share_rad kw) false in
  let distance_function := param (kw_distance_function kw) "gaussian" in
  let num_distance_basis := param (kw_num_distance_basis kw) 512%Z in
  let attn_activation := param (kw_attn_activation kw) "silu" in
  let use_s2_act_attn := param (kw_use_s2_act_attn kw) false in
  let use_attn_renorm := param (kw_use_attn_renorm kw) true in
  let ffn_activation := param (kw_ffn_activation kw) "silu" in
  let use_gate_act := param (kw_use_gate_act kw) false in
  let use_grid_mlp := param (kw_use_grid_mlp kw) true in
  let use_sep_s2_act := param (kw_use_sep_s2_act kw) true in
  let alpha_drop := param (kw_alpha_drop kw) 0.1%float in
  let drop_path_rate :=
    param (kw_drop_path_rate kw) 0.1%float in
  let proj_drop := param (kw_proj_drop kw) 0.0%float in
  let weight_init := param (kw_weight_init kw) "uniform" in
  let enforce_max_neighbors_strictly :=
    param (kw_enforce_max_neighbors_strictly kw) true in
  let avg_num_nodes := param (kw_avg_num_nodes kw) None in
  let avg_degree := param (kw_avg_degree kw) None in
  let use_energy_lin_ref := param (kw_use_energy_lin_ref kw) (Some false) in
  let load_energy_lin_ref := param (kw_load_energy_lin_ref kw) (Some false) in
  let activation_checkpoint :=
    param (kw_activation_checkpoint kw) (Some false) in

  let mmax_list := match mmax_list with None => [2%Z] | Some l => l end in
  let lmax_list := match lmax_list with None => [6%Z] | Some l => l end in
  emit Module_init ;;

  (if negb (str_in "e3nn" (sys_modules rt))
   then emit (LoggingError
                "You need to install e3nn==0.4.4 to use EquiformerV2.") ;;
        raise ImportError
   else ret tt) ;;

  let cutoff := max_radius in
  block_use_atom_edge_embedding <-
    (if share_atom_edge_embedding
     then assert_ use_atom_edge_embedding "" ;; ret false
     else ret use_atom_edge_embedding) ;;

  let avg_num_nodes := float_or avg_num_nodes _AVG_NUM_NODES in
  let avg_degree := float_or avg_degree _AVG_DEGREE in

  assert_ (negb (truthy use_energy_lin_ref
                 && negb (truthy load_energy_lin_ref)))
          lin_ref_message ;;

  assert_ (str_in weight_init ["normal"; "uniform"]) "" ;;

  let device := "cpu" in
  let grad_forces := false in
  let num_resolutions := Z.of_nat (length lmax_list) in
  let sphere_channels_all := (num_resolutions * sphere_channels)%Z in

  (* Weights for message initialization *)
  construct rt (nn_Embedding max_num_elements sphere_channels_all) ;;

  (* Initialize the function used to measure the distances between atoms *)
  assert_ (str_in distance_function ["gaussian"]) "" ;;
  (if String.eqb distance_function "gaussian"
   then construct rt (GaussianSmearing 0.0%float cutoff 600%Z 2.0%float)
   else raise ValueError) ;;

  construct rt Layers ;;

  ret {| activation_checkpoint := activation_checkpoint;
         use_pbc := use_pbc;
         use_pbc_single := use_pbc_single;
         regress_forces := regress_forces;
         otf_graph := otf_graph;
         max_neighbors := max_neighbors;
         max_radius := max_radius;
         cutoff := cutoff;
         max_num_elements := max_num_elements;
         num_layers := num_layers;
         sphere_channels := sphere_channels;
         attn_hidden_channels := attn_hidden_channels;
         num_heads := num_heads;
         attn_alpha_channels := attn_alpha_channels;
         attn_value_channels := attn_value_channels;
         ffn_hidden_channels := ffn_hidden_channels;
         norm_type := norm_type;
         lmax_list := lmax_list;
         mmax_list := mmax_list;
         grid_resolution := grid_resolution;
         num_sphere_samples := num_sphere_samples;
         edge_channels := edge_channels;
         use_atom_edge_embedding := use_atom_edge_embedding;
         share_atom_edge_embedding := share_atom_edge_embedding;
         block_use_atom_edge_embedding := block_use_atom_edge_embedding;
         use_m_share_rad := use_m_share_rad;
         distance_function := distance_function;
         num_distance_basis := num_distance_basis;
         attn_activation := attn_activation;
         use_s2_act_attn := use_s2_act_attn;
         use_attn_renorm := use_attn_renorm;
         ffn_activation := ffn_activation;
         use_gate_act := use_gate_act;
         use_grid_mlp := use_grid_mlp;
         use_sep_s2_act := use_sep_s2_act;
         alpha_drop := alpha_drop;
         drop_path_rate := drop_path_rate;
         proj_drop := proj_drop;
         avg_num_nodes := avg_num_nodes;
         avg_degree := avg_degree;
         use_energy_lin_ref := use_energy_lin_ref;
         load_energy_lin_ref := load_energy_lin_ref;
         weight_init := weight_init;
         enforce_max_neighbors_strictly := enforce_max_neighbors_strictly;
         device := device;
         grad_forces := grad_forces;
         num_resolutions := num_resolutions;
         sphere_channels_all := sphere_channels_all |}.

(** ** forward *)

Section Forward.
(** Tensors and spherical-harmonic embeddings are the framework's. *)
Variables Tensor SO3_Embedding : Type.

(** The attributes of the input batch that [forward] reads. *)
Record Batch : Type := {
  natoms : Tensor;
  pos : Tensor;
  atomic_numbers : list nat;
  main_edge_index : Tensor;
  main_distance : Tensor;
  main_vector : Tensor;
  main_cell_offset : Tensor;
  main_cell_offsets_distances : Tensor;
  main_num_neighbors : Tensor;
  batch : Tensor
}.

Record GraphData : Type := {
  edge_index : Tensor;
  edge_distance : Tensor;
  edge_distance_vec : Tensor;
  cell_offsets : Tensor;
  offset_distances : Tensor;
  neighbors : Tensor;
  node_offset : Z;
  batch_full : Tensor;
  atomic_numbers_full : list nat
}.

(** The dictionary [forward] returns. *)
Record Output : Type := {
  node_embedding : SO3_Embedding;
  graph : GraphData
}.

(** Everything [forward] does with the graph once it is built: the
    graph-parallel partition, the edge rotation matrices, the node and
    edge embeddings, the transformer blocks and the final normalization.
    It yields the embedding and the updated graph, or the class of the
    exception raised inside the framework. *)
Variable layers : Self -> Batch -> GraphData ->
                  SO3_Embedding * GraphData + string.

(** [t.max().item()]; torch raises a RuntimeError on an empty tensor. *)
Definition tensor_max (t : list nat) : result nat :=
  match t with
  | [] => Err (Library "RuntimeError")
  | a :: t' => Ok (fold_left Nat.max t' a)
  end.

(** [forward(data)]; the value [None] is Python's [None].  The attributes
    the method first stores on [self] ([batch_size], [dtype], [device]) are
    read by the layers only and are not part of the result. *)
Definition forward (self : Self) (data : Batch) : M event (option Output) :=
  let atomic_numbers_ := atomic_numbers data in
  m <- lift (tensor_max atomic_numbers_) ;;
  if (max_num_elements self <=? Z.of_nat m)%Z
  then emit (Print "Skipping sample with atomic number exceeding the maximum") ;;
       ret None
  else
    let graph :=
      {| edge_index := main_edge_index data;
         edge_distance := main_distance data;
         edge_distance_vec := main_vector data;
         cell_offsets := main_cell_offset data;
         offset_distances := main_cell_offsets_distances data;
         neighbors := main_num_neighbors data;
         node_offset := 0;
         batch_full := batch data;
         atomic_numbers_full := atomic_numbers data |} in
    match layers self data graph with
    | inr cls => lift (Err (Library cls))
    | inl (x, graph) =>
        ret (Some {| node_embedding := x; graph := graph |})
    end.
End Forward.

End EquiformerV2Backbone.

(** * What the specification says, in its own words

    The definitions of this module are not taken from the code: they state
    the quantities the specification names, to be compared with what the
    code computes. *)

Module Reference.
Import Trans1xLinearRef.

(** A sample all of whose atomic numbers are below 10. *)
Definition small_atoms (d : Data) : Prop :=
  Forall (fun z => z < 10) (atomic_numbers d).

(** The per-atomic-number atom-count vector of a sample: entry [z] is the
    number of atoms with atomic number [z], for [z] from 0 to 9. *)
Definition atom_counts (atoms : list nat) : list Z :=
  map (fun z => Z.of_nat (count_occ Nat.eq_dec atoms z)) (seq 0 10).

(** The regression problem of the dataset: one row of atom counts and one
    energy target per sample. *)
Definition design_matrix (ds : list Data) : list (list Z) :=
  map (fun d => atom_counts (atomic_numbers d)) ds.

Definition energy_targets (ds : list Data) : list R := map y ds.

Definition Zsum (xs : list Z) : Z := fold_right Z.add 0%Z xs.

(** The arithmetic mean. *)
Definition arithmetic_mean (xs : list R) : R :=
  (Rsum xs / INR (length xs))%R.


(** The force vectors of all atoms of all samples. *)
Definition atom_forces (ds : list Data) : list Vec3 := flat_map force ds.




(** The sequential computation of the per-sample results:
    [[func(idx) for idx in indices]]. *)
Definition sequential_list {C} (func : nat -> result C) (indices : list nat)
  : result (list C) :=
  sequence (map func indices).



(** The two subcommands computed in a single process: as in the script,
    with the list comprehension in place of the worker pool. *)
Definition sequential_compute_mean_std (w : World) (args : Namespace)
  : M event unit :=
  ds <- lift (compute_mean_std.dataset w args) ;;
  let indices := seq 0 (length ds) in
  outputs <- lift (sequential_list (compute_mean_std.extract_data w args) indices) ;;
  let energies := map fst outputs in
  let forces := np_array (all_forces outputs) in
  let energy_mean := mean_of energies in
  let energy_std := np_std energies in
  let force_rms := np_sqrt (np_mean (np_square forces)) in
  let force_md := np_mean (np_linalg_norm_last_axis forces) in
  emit (Print [Lit "energy_mean: "; Num energy_mean;
               Lit ", energy_std: "; Num energy_std;
               Lit ", force_rms: "; Num force_rms;
               Lit ", force_md: "; Num force_md]) ;;
  out_path <- lift (getattr args "out_path") ;;
  f <- lift (as_file out_path) ;;
  emit (PickleDump f [("energy_mean", energy_mean);
                      ("energy_std", energy_std);
                      ("force_rms", force_rms);
                      ("force_md", force_md)]).

Definition sequential_linref
    (lstsq : list (list Z) -> list R -> list R + string)
    (w : World) (args : Namespace) : M event unit :=
  ds <- lift (linref.dataset w args) ;;
  let indices := seq 0 (length ds) in
  outputs <- lift (sequential_list (linref.extract_data w args) indices) ;;
  let features := map (fun x => fst (fst x)) outputs in
  let targets := map (fun x => snd (fst x)) outputs in
  X <- lift (np_vstack features) ;;
  coeff <- lift (match lstsq X targets with
                 | inl coeff => Ok coeff
                 | inr cls => Err (Library cls)
                 end) ;;
  out_path <- lift (getattr args "out_path") ;;
  file <- lift (as_file out_path) ;;
  emit (SavezCompressed file [("coeff", coeff)]) ;;
  emit (Print [Lit "Saved linear reference coefficients to "; Obj out_path]).

(** The configurations the constructor's assertions reject. *)
Import EquiformerV2Backbone.

Definition invalid_configuration (kw : kwargs) : Prop :=
  (param (kw_share_atom_edge_embedding kw) false = true /\
   param (kw_use_atom_edge_embedding kw) true = false)
  \/ (truthy (param (kw_use_energy_lin_ref kw) (Some false)) = true /\
      truthy (param (kw_load_energy_lin_ref kw) (Some false)) = false)
  \/ (param (kw_weight_init kw) "uniform" <> "normal" /\
      param (kw_weight_init kw) "uniform" <> "uniform")
  \/ param (kw_distance_function kw) "gaussian" <> "gaussian".

(** The same, as a test on the arguments. *)
Definition rejected (kw : kwargs) : bool :=
  (param (kw_share_atom_edge_embedding kw) false
   && negb (param (kw_use_atom_edge_embedding kw) true))
  || (truthy (param (kw_use_energy_lin_ref kw) (Some false))
      && negb (truthy (param (kw_load_energy_lin_ref kw) (Some false))))
  || negb (str_in (param (kw_weight_init kw) "uniform") ["normal"; "uniform"])
  || negb (str_in (param (kw_distance_function kw) "gaussian") ["gaussian"]).

(** The line [forward] prints when it gives up on a batch. *)
Definition skip_message : string :=
  "Skipping sample with atomic number exceeding the maximum".

End Reference.

(** * Example inputs *)

Module Examples.
Import Trans1xLinearRef.

(** A water molecule and a methane molecule. *)
Definition water : Data :=
  {| atomic_numbers := [1; 1; 8];
     y := 3;
     force := [(1, 0, 0); (0, 1, 0); (0, 0, 2)]%R |}.

Definition methane : Data :=
  {| atomic_numbers := [6; 1; 1; 1; 1];
     y := 5;
     force := [(0, 0, 0); (1, 0, 0); (0, 1, 0); (0, 0, 1); (1, 1, 1)]%R |}.

(** A machine with 8 cores on which the path [data] holds these two
    samples. *)
Definition machine : World :=
  {| cpu_count := 8;
     PretrainLmdbDataset := fun kw =>
       match lookup kw "src" with
       | Some (VPath "data") => Ok [water; methane]
       | _ => Err (Library "FileNotFoundError")
       end;
     schedule := fun t => 3 * t + 1 |}.


(** A solver that answers with zeros, one per column. *)
Definition zero_solver (X : list (list Z)) (y : list R)
  : list R + string :=
  inl (repeat 0%R (ncols X)).



Definition linref_args : Namespace :=
  [("src", VPath "data"); ("out_path", VPath "linref.npz");
   ("num_workers", VInt 4); ("fn", VFn fn_linref);
   ("subcommand", VStr "linref")].

Definition mean_std_args : Namespace :=
  [("src", VPath "data"); ("out_path", VPath "stats.pkl");
   ("linref_path", VNone); ("num_workers", VInt 4);
   ("fn", VFn fn_compute_mean_std);
   ("subcommand", VStr "compute_mean_std")].

End Examples.

(** * The backbone: graph-parallel partitions and weight decay *)

Module EquiformerV2BackboneMethods.
Import EquiformerV2Backbone.

(** [t.min().item()]; torch raises a RuntimeError on an empty tensor. *)
Definition tensor_min (t : list nat) : result nat :=
  match t with
  | [] => Err (Library "RuntimeError")
  | a :: t' => Ok (fold_left Nat.min t' a)
  end.

(** [torch.where(cond)[0]]: the positions at which [cond] holds, in
    increasing order; [where_from start] numbers them from [start]. *)
Fixpoint where_from (start : nat) (cond : list bool) : list nat :=
  match cond with
  | [] => []
  | b :: cond' =>
      if b then start :: where_from (S start) cond'
      else where_from (S start) cond'
  end.

Definition torch_where (cond : list bool) : list nat := where_from 0 cond.

(** [t[idx]] for a tensor [idx] of positions: the entries at these
    positions, in the order of [idx]; torch raises an IndexError for a
    position outside [t]. *)
Definition index_select {A} (t : list A) (idx : list nat) : result (list A) :=
  sequence (map (fun i => match nth_error t i with
                          | Some a => Ok a
                          | None => Err (Library "IndexError")
                          end) idx).

(** What [_init_gp_partitions] returns, in the order of its tuple. *)
Record gp_partitions (Distance Vector : Type) : Type := {
  part_atomic_numbers : list nat;
  part_data_batch : list nat;
  part_node_offset : nat;
  part_edge_index : list (nat * nat);
  part_edge_distance : list Distance;
  part_edge_distance_vec : list Vector
}.

Section GraphParallel.
(** The entries of [edge_distance] and of [edge_distance_vec]. *)
Variables Distance Vector : Type.

(** [gp_utils.scatter_to_model_parallel_region]: the part of a tensor that
    goes to this rank. *)
Variable scatter_to_model_parallel_region : list nat -> list nat.

(** [edge_index] is a tensor with two rows: it is held as the list of its
    columns, (source, target); [edge_index[1]] is the row of the targets. *)
Definition _init_gp_partitions
    (atomic_numbers_full data_batch_full : list nat)
    (edge_index : list (nat * nat))
    (edge_distance : list Distance) (edge_distance_vec : list Vector)
  : result (gp_partitions Distance Vector) :=
  let node_partition :=
    scatter_to_model_parallel_region (seq 0 (length atomic_numbers_full)) in
  lo <-? tensor_min node_partition ;;
  hi <-? tensor_max node_partition ;;
  let edge_partition :=
    torch_where (map (fun e => (lo <=? snd e) && (snd e <=? hi)) edge_index) in
  edge_index <-? index_select edge_index edge_partition ;;
  edge_distance <-? index_select edge_distance edge_partition ;;
  edge_distance_vec <-? index_select edge_distance_vec edge_partition ;;
  atomic_numbers <-? index_select atomic_numbers_full node_partition ;;
  data_batch <-? index_select data_batch_full node_partition ;;
  node_offset <-? tensor_min node_partition ;;
  Ok {| part_atomic_numbers := atomic_numbers;
        part_data_batch := data_batch;
        part_node_offset := node_offset;
        part_edge_index := edge_index;
        part_edge_distance := edge_distance;
        part_edge_distance_vec := edge_distance_vec |}.
End GraphParallel.

(** An edge whose target lies between [lo] and [hi]. *)
Definition target_between (lo hi : nat) (e : nat * nat) : bool :=
  (lo <=? snd e) && (snd e <=? hi).

(** The classes [no_weight_decay] looks for, and all the others. *)
Inductive module_class : Type :=
| torch_nn_Linear
| SO3_LinearV2
| torch_nn_LayerNorm
| EquivariantLayerNormArray
| EquivariantLayerNormArraySphericalHarmonics
| EquivariantRMSNormArraySphericalHarmonics
| EquivariantRMSNormArraySphericalHarmonicsV2
| GaussianRadialBasisLayer
| other_class.

(** A module: the listed class it is an instance of, if any, and the names
    [module.named_parameters()] yields. *)
Record nn_Module : Type := {
  class : module_class;
  named_parameters : list string
}.

(** [isinstance(module, (torch.nn.Linear, ..., GaussianRadialBasisLayer))] *)
Definition is_listed (c : module_class) : bool :=
  match c with
  | other_class => false
  | _ => true
  end.

(** [isinstance(module, (torch.nn.Linear, SO3_LinearV2))] *)
Definition is_linear (c : module_class) : bool :=
  match c with
  | torch_nn_Linear | SO3_LinearV2 => true
  | _ => false
  end.

(** [sub in s] for strings. *)
Fixpoint contains (sub s : string) : bool :=
  prefix sub s
  || match s with
     | EmptyString => false
     | String _ s' => contains sub s'
     end.

(** The inner loop of [no_weight_decay], over the parameters of one
    module. *)
Fixpoint parameters_loop (named_parameters_list : list string)
    (module_name : string) (module : nn_Module) (parameters : list string)
    (no_wd_list : list string) : result (list string) :=
  match parameters with
  | [] => Ok no_wd_list
  | parameter_name :: rest =>
      if is_linear (class module) && contains "weight" parameter_name
      then parameters_loop named_parameters_list module_name module rest
             no_wd_list
      else
        let global_parameter_name :=
          (module_name ++ "." ++ parameter_name)%string in
        if str_in global_parameter_name named_parameters_list
        then parameters_loop named_parameters_list module_name module rest
               (no_wd_list ++ [global_parameter_name])
        else Err (AssertionError "")
  end.

(** The outer loop, over [self.named_modules()]. *)
Fixpoint modules_loop (named_parameters_list : list string)
    (modules : list (string * nn_Module)) (no_wd_list : list string)
  : result (list string) :=
  match modules with
  | [] => Ok no_wd_list
  | (module_name, module) :: rest =>
      if is_listed (class module)
      then
        no_wd_list <-? parameters_loop named_parameters_list module_name
                         module (named_parameters module) no_wd_list ;;
        modules_loop named_parameters_list rest no_wd_list
      else modules_loop named_parameters_list rest no_wd_list
  end.

(** [no_weight_decay()], given the names [self.named_parameters()] yields
    and the modules [self.named_modules()] yields with their names.  The set
    it returns is held as a list without repetitions. *)
Definition no_weight_decay (self_named_parameters : list string)
    (self_named_modules : list (string * nn_Module)) : result (list string) :=
  let named_parameters_list := self_named_parameters in
  no_wd_list <-? modules_loop named_parameters_list self_named_modules [] ;;
  Ok (nodup string_dec no_wd_list).

(** The parameters of one module that the inner loop keeps. *)
Definition kept (module : nn_Module) (parameter_name : string) : bool :=
  negb (is_linear (class module) && contains "weight" parameter_name).

Definition global_names (module_name : string) (module : nn_Module)
    (parameters : list string) : list string :=
  map (fun parameter_name => (module_name ++ "." ++ parameter_name)%string)
      (filter (kept module) parameters).

(** The names the outer loop is to collect, in the order of the loop. *)
Fixpoint all_global_names (modules : list (string * nn_Module))
  : list string :=
  match modules with
  | [] => []
  | (module_name, module) :: rest =>
      (if is_listed (class module)
       then global_names module_name module (named_parameters module)
       else [])
      ++ all_global_names rest
  end.

(** A parameter that [no_weight_decay] is to collect: it belongs to a module
    of a listed class and is not a weight of a linear layer. *)
Definition collected (modules : list (string * nn_Module)) (name : string)
  : Prop :=
  exists module_name module parameter_name,
    In (module_name, module) modules
    /\ is_listed (class module) = true
    /\ In parameter_name (named_parameters module)
    /\ (is_linear (class module) && contains "weight" parameter_name) = false
    /\ name = (module_name ++ "." ++ parameter_name)%string.

End EquiformerV2BackboneMethods.

(** * Examples: modules and their parameters *)

Module ModuleExamples.
Import EquiformerV2BackboneMethods.

(** A model with a linear layer and a layer norm. *)
Definition linear_and_norm : list (string * nn_Module) :=
  [("", {| class := other_class;
           named_parameters := ["lin.weight"; "lin.bias";
                                "norm.weight"; "norm.bias"] |});
   ("lin", {| class := torch_nn_Linear;
              named_parameters := ["weight"; "bias"] |});
   ("norm", {| class := torch_nn_LayerNorm;
               named_parameters := ["weight"; "bias"] |})].

Definition linear_and_norm_parameters : list string :=
  ["lin.weight"; "lin.bias"; "norm.weight"; "norm.bias"].

End ModuleExamples.

(** * The backbone: the l = 0 coefficients of the node embedding *)

Module NodeEmbedding.
Import EquiformerV2Backbone EquiformerV2BackboneMethods.

(** Where a bound of a slice falls in a row of [len] entries: a negative
    bound counts from the end, and both bounds are clipped to the row. *)
Definition slice_bound (len i : Z) : Z :=
  if (i <? 0)%Z then Z.max 0 (len + i) else Z.min len i.

(** [row[start : stop]] *)
Definition slice {A} (start stop : Z) (row : list A) : list A :=
  let len := Z.of_nat (length row) in
  let start := slice_bound len start in
  let stop := slice_bound len stop in
  firstn (Z.to_nat (stop - start)) (skipn (Z.to_nat start) row).

Section L0.
(** The entries of the embedding tensors. *)
Variable A : Type.

(** The assignment [x.embedding[:, offset_res, :] = value]: the coefficient
    it writes, and the row of channels it writes for each node. *)
Record assignment : Type := {
  coefficient : Z;
  value : list (list A)
}.

(** [self.sphere_embedding], an [nn.Embedding], is held as its weight: one
    row of channels per element; calling it looks the rows up. *)
Variable sphere_embedding : list (list A).

(** The loop over [range(self.num_resolutions)] that initializes the
    l = 0, m = 0 coefficients, from the values [offset_res] and [offset]
    have before it. *)
Fixpoint l0_loop (self : Self) (atomic_numbers : list nat)
    (range : list nat) (offset_res offset : Z) : M assignment unit :=
  match range with
  | [] => ret tt
  | i :: range' =>
      embedded <- lift (index_select sphere_embedding atomic_numbers) ;;
      emit {| coefficient := offset_res;
              value := if (num_resolutions self =? 1)%Z
                       then embedded
                       else map (slice offset (offset + sphere_channels self))
                                embedded |} ;;
      let offset := (offset + sphere_channels self)%Z in
      lmax <- lift (match nth_error (lmax_list self) i with
                    | Some lmax => Ok lmax
                    | None => Err IndexError
                    end) ;;
      l0_loop self atomic_numbers range'
        (offset_res + (lmax + 1) ^ 2)%Z offset
  end.

Definition init_l0_coefficients (self : Self) (atomic_numbers : list nat)
  : M assignment unit :=
  l0_loop self atomic_numbers (seq 0 (Z.to_nat (num_resolutions self)))
    0%Z 0%Z.
End L0.

(** [EquiformerV2Backbone(max_num_elements=3, sphere_channels=2,
    lmax_list=[1, 2], mmax_list=[1, 2])] *)
Definition two_resolutions : kwargs :=
  {| kw_use_pbc := None;
     kw_use_pbc_single := None;
     kw_regress_forces := None;
     kw_otf_graph := None;
     kw_max_neighbors := None;
     kw_max_radius := None;
     kw_max_num_elements := Some 3%Z;
     kw_num_layers := None;
     kw_sphere_channels := Some 2%Z;
     kw_attn_hidden_channels := None;
     kw_num_heads := None;
     kw_attn_alpha_channels := None;
     kw_attn_value_channels := None;
     kw_ffn_hidden_channels := None;
     kw_norm_type := None;
     kw_lmax_list := Some (Some [1; 2]%Z);
     kw_mmax_list := Some (Some [1; 2]%Z);
     kw_grid_resolution := None;
     kw_num_sphere_samples := None;
     kw_edge_channels := None;
     kw_use_atom_edge_embedding := None;
     kw_share_atom_edge_embedding := None;
     kw_use_m_share_rad := None;
     kw_distance_function := None;
     kw_num_distance_basis := None;
     kw_attn_activation := None;
     kw_use_s2_act_attn := None;
     kw_use_attn_renorm := None;
     kw_ffn_activation := None;
     kw_use_gate_act := None;
     kw_use_grid_mlp := None;
     kw_use_sep_s2_act := None;
     kw_alpha_drop := None;
     kw_drop_path_rate := None;
     kw_proj_drop := None;
     kw_weight_init := None;
     kw_enforce_max_neighbors_strictly := None;
     kw_avg_num_nodes := None;
     kw_avg_degree := None;
     kw_use_energy_lin_ref := None;
     kw_load_energy_lin_ref := None;
     kw_activation_checkpoint := None |}.

(** An embedding of three elements with four channels. *)
Definition four_channels : list (list Z) :=
  [[10; 11; 12; 13]; [20; 21; 22; 23]; [30; 31; 32; 33]]%Z.

End NodeEmbedding.

(** * The backbone: arguments and attributes changed in one place *)

Module BackboneUpdates.
Import EquiformerV2Backbone.

(** The call [kw] with [num_distance_basis] passed, or left out, as
    [passed] says. *)
Definition with_num_distance_basis (passed : option Z) (kw : kwargs)
  : kwargs :=
  {| kw_use_pbc := kw_use_pbc kw;
     kw_use_pbc_single := kw_use_pbc_single kw;
     kw_regress_forces := kw_regress_forces kw;
     kw_otf_graph := kw_otf_graph kw;
     kw_max_neighbors := kw_max_neighbors kw;
     kw_max_radius := kw_max_radius kw;
     kw_max_num_elements := kw_max_num_elements kw;
     kw_num_layers := kw_num_layers kw;
     kw_sphere_channels := kw_sphere_channels kw;
     kw_attn_hidden_channels := kw_attn_hidden_channels kw;
     kw_num_heads := kw_num_heads kw;
     kw_attn_alpha_channels := kw_attn_alpha_channels kw;
     kw_attn_value_channels := kw_attn_value_channels kw;
     kw_ffn_hidden_channels := kw_ffn_hidden_channels kw;
     kw_norm_type := kw_norm_type kw;
     kw_lmax_list := kw_lmax_list kw;
     kw_mmax_list := kw_mmax_list kw;
     kw_grid_resolution := kw_grid_resolution kw;
     kw_num_sphere_samples := kw_num_sphere_samples kw;
     kw_edge_channels := kw_edge_channels kw;
     kw_use_atom_edge_embedding := kw_use_atom_edge_embedding kw;
     kw_share_atom_edge_embedding := kw_share_atom_edge_embedding kw;
     kw_use_m_share_rad := kw_use_m_share_rad kw;
     kw_distance_function := kw_distance_function kw;
     kw_num_distance_basis := passed;
     kw_attn_activation := kw_attn_activation kw;
     kw_use_s2_act_attn := kw_use_s2_act_attn kw;
     kw_use_attn_renorm := kw_use_attn_renorm kw;
     kw_ffn_activation := kw_ffn_activation kw;
     kw_use_gate_act := kw_use_gate_act kw;
     kw_use_grid_mlp := kw_use_grid_mlp kw;
     kw_use_sep_s2_act := kw_use_sep_s2_act kw;
     kw_alpha_drop := kw_alpha_drop kw;
     kw_drop_path_rate := kw_drop_path_rate kw;
     kw_proj_drop := kw_proj_drop kw;
     kw_weight_init := kw_weight_init kw;
     kw_enforce_max_neighbors_strictly := kw_enforce_max_neighbors_strictly kw;
     kw_avg_num_nodes := kw_avg_num_nodes kw;
     kw_avg_degree := kw_avg_degree kw;
     kw_use_energy_lin_ref := kw_use_energy_lin_ref kw;
     kw_load_energy_lin_ref := kw_load_energy_lin_ref kw;
     kw_activation_checkpoint := kw_activation_checkpoint kw |}.



(** [EquiformerV2Backbone(avg_num_nodes=0.0, avg_degree=-2.5)] *)
Definition zero_average : kwargs :=
  {| kw_use_pbc := None;
     kw_use_pbc_single := None;
     kw_regress_forces := None;
     kw_otf_graph := None;
     kw_max_neighbors := None;
     kw_max_radius := None;
     kw_max_num_elements := None;
     kw_num_layers := None;
     kw_sphere_channels := None;
     kw_attn_hidden_channels := None;
     kw_num_heads := None;
     kw_attn_alpha_channels := None;
     kw_attn_value_channels := None;
     kw_ffn_hidden_channels := None;
     kw_norm_type := None;
     kw_lmax_list := None;
     kw_mmax_list := None;
     kw_grid_resolution := None;
     kw_num_sphere_samples := None;
     kw_edge_channels := None;
     kw_use_atom_edge_embedding := None;
     kw_share_atom_edge_embedding := None;
     kw_use_m_share_rad := None;
     kw_distance_function := None;
     kw_num_distance_basis := None;
     kw_attn_activation := None;
     kw_use_s2_act_attn := None;
     kw_use_attn_renorm := None;
     kw_ffn_activation := None;
     kw_use_gate_act := None;
     kw_use_grid_mlp := None;
     kw_use_sep_s2_act := None;
     kw_alpha_drop := None;
     kw_drop_path_rate := None;
     kw_proj_drop := None;
     kw_weight_init := None;
     kw_enforce_max_neighbors_strictly := None;
     kw_avg_num_nodes := Some (Some 0%float);
     kw_avg_degree := Some (Some (-2.5)%float);
     kw_use_energy_lin_ref := None;
     kw_load_energy_lin_ref := None;
     kw_activation_checkpoint := None |}.

End BackboneUpdates.

(** * Example inputs at the edges *)

Module EdgeExamples.
Import Trans1xLinearRef.

(** An argon atom (atomic number 18) and a sample without atoms. *)
Definition argon : Data :=
  {| atomic_numbers := [18]; y := 1; force := [(0, 0, 0)]%R |}.


(** A sample with an atomic number that does not fit a row of 10 entries. *)
Definition has_heavy_atom (d : Data) : Prop :=
  Exists (fun z => 10 <= z) (atomic_numbers d).

(** A machine whose path [data] holds the given samples. *)
Definition machine_with (ds : list Data) : World :=
  {| cpu_count := 8;
     PretrainLmdbDataset := fun kw =>
       match lookup kw "src" with
       | Some (VPath "data") => Ok ds
       | _ => Err (Library "FileNotFoundError")
       end;
     schedule := fun t => 5 * t + 2 |}.

(** [compute_mean_std --src data --num_workers 4], without [--out_path]. *)
Definition args_without_out_path : Namespace :=
  [("src", VPath "data"); ("out_path", VNone); ("linref_path", VNone);
   ("num_workers", VInt 4); ("fn", VFn fn_compute_mean_std);
   ("subcommand", VStr "compute_mean_std")].

End EdgeExamples.

(** * Example inputs for the backbone *)

Module BackboneExamples.
Import EquiformerV2Backbone.

(** An interpreter in which [e3nn] was imported, and one in which it was
    not; in both the framework's constructors do not raise. *)
Definition with_e3nn : Runtime :=
  {| sys_modules := ["sys"; "torch"; "e3nn"]; raises := fun _ => None |}.

Definition without_e3nn : Runtime :=
  {| sys_modules := ["sys"; "torch"]; raises := fun _ => None |}.

(** [EquiformerV2Backbone(lmax_list=None, mmax_list=None)] *)
Definition lists_passed_as_None : kwargs :=
  {| kw_use_pbc := None;
     kw_use_pbc_single := None;
     kw_regress_forces := None;
     kw_otf_graph := None;
     kw_max_neighbors := None;
     kw_max_radius := None;
     kw_max_num_elements := None;
     kw_num_layers := None;
     kw_sphere_channels := None;
     kw_attn_hidden_channels := None;
     kw_num_heads := None;
     kw_attn_alpha_channels := None;
     kw_attn_value_channels := None;
     kw_ffn_hidden_channels := None;
     kw_norm_type := None;
     kw_lmax_list := Some None;
     kw_mmax_list := Some None;
     kw_grid_resolution := None;
     kw_num_sphere_samples := None;
     kw_edge_channels := None;
     kw_use_atom_edge_embedding := None;
     kw_share_atom_edge_embedding := None;
     kw_use_m_share_rad := None;
     kw_distance_function := None;
     kw_num_distance_basis := None;
     kw_attn_activation := None;
     kw_use_s2_act_attn := None;
     kw_use_attn_renorm := None;
     kw_ffn_activation := None;
     kw_use_gate_act := None;
     kw_use_grid_mlp := None;
     kw_use_sep_s2_act := None;
     kw_alpha_drop := None;
     kw_drop_path_rate := None;
     kw_proj_drop := None;
     kw_weight_init := None;
     kw_enforce_max_neighbors_strictly := None;
     kw_avg_num_nodes := None;
     kw_avg_degree := None;
     kw_use_energy_lin_ref := None;
     kw_load_energy_lin_ref := None;
     kw_activation_checkpoint := None |}.

(** [EquiformerV2Backbone(share_atom_edge_embedding=True,
    use_atom_edge_embedding=False)] *)
Definition shared_embedding_without_atom_embedding : kwargs :=
  {| kw_use_pbc := None;
     kw_use_pbc_single := None;
     kw_regress_forces := None;
     kw_otf_graph := None;
     kw_max_neighbors := None;
     kw_max_radius := None;
     kw_max_num_elements := None;
     kw_num_layers := None;
     kw_sphere_channels := None;
     kw_attn_hidden_channels := None;
     kw_num_heads := None;
     kw_attn_alpha_channels := None;
     kw_attn_value_channels := None;
     kw_ffn_hidden_channels := None;
     kw_norm_type := None;
     kw_lmax_list := None;
     kw_mmax_list := None;
     kw_grid_resolution := None;
     kw_num_sphere_samples := None;
     kw_edge_channels := None;
     kw_use_atom_edge_embedding := Some false;
     kw_share_atom_edge_embedding := Some true;
     kw_use_m_share_rad := None;
     kw_distance_function := None;
     kw_num_distance_basis := None;
     kw_attn_activation := None;
     kw_use_s2_act_attn := None;
     kw_use_attn_renorm := None;
     kw_ffn_activation := None;
     kw_use_gate_act := None;
     kw_use_grid_mlp := None;
     kw_use_sep_s2_act := None;
     kw_alpha_drop := None;
     kw_drop_path_rate := None;
     kw_proj_drop := None;
     kw_weight_init := None;
     kw_enforce_max_neighbors_strictly := None;
     kw_avg_num_nodes := None;
     kw_avg_degree := None;
     kw_use_energy_lin_ref := None;
     kw_load_energy_lin_ref := None;
     kw_activation_checkpoint := None |}.

(** [EquiformerV2Backbone(use_energy_lin_ref=True,
    load_energy_lin_ref=None)] *)
Definition lin_ref_used_not_loaded : kwargs :=
  {| kw_use_pbc := None;
     kw_use_pbc_single := None;
     kw_regress_forces := None;
     kw_otf_graph := None;
     kw_max_neighbors := None;
     kw_max_radius := None;
     kw_max_num_elements := None;
     kw_num_layers := None;
     kw_sphere_channels := None;
     kw_attn_hidden_channels := None;
     kw_num_heads := None;
     kw_attn_alpha_channels := None;
     kw_attn_value_channels := None;
     kw_ffn_hidden_channels := None;
     kw_norm_type := None;
     kw_lmax_list := None;
     kw_mmax_list := None;
     kw_grid_resolution := None;
     kw_num_sphere_samples := None;
     kw_edge_channels := None;
     kw_use_atom_edge_embedding := None;
     kw_share_atom_edge_embedding := None;
     kw_use_m_share_rad := None;
     kw_distance_function := None;
     kw_num_distance_basis := None;
     kw_attn_activation := None;
     kw_use_s2_act_attn := None;
     kw_use_attn_renorm := None;
     kw_ffn_activation := None;
     kw_use_gate_act := None;
     kw_use_grid_mlp := None;
     kw_use_sep_s2_act := None;
     kw_alpha_drop := None;
     kw_drop_path_rate := None;
     kw_proj_drop := None;
     kw_weight_init := None;
     kw_enforce_max_neighbors_strictly := None;
     kw_avg_num_nodes := None;
     kw_avg_degree := None;
     kw_use_energy_lin_ref := Some (Some true);
     kw_load_energy_lin_ref := Some None;
     kw_activation_checkpoint := None |}.

(** An interpreter with [e3nn] in which torch refuses an embedding table
    with a negative number of rows. *)
Definition strict_embedding : Runtime :=
  {| sys_modules := ["sys"; "torch"; "e3nn"];
     raises := fun c =>
       match c with
       | nn_Embedding n d =>
           if (n <? 0)%Z then Some "RuntimeError" else None
       | _ => None
       end |}.

(** [EquiformerV2Backbone(max_num_elements=-1,
    distance_function='sigmoid')] *)
Definition sigmoid_distance_negative_elements : kwargs :=
  {| kw_use_pbc := None;
     kw_use_pbc_single := None;
     kw_regress_forces := None;
     kw_otf_graph := None;
     kw_max_neighbors := None;
     kw_max_radius := None;
     kw_max_num_elements := Some (-1)%Z;
     kw_num_layers := None;
     kw_sphere_channels := None;
     kw_attn_hidden_channels := None;
     kw_num_heads := None;
     kw_attn_alpha_channels := None;
     kw_attn_value_channels := None;
     kw_ffn_hidden_channels := None;
     kw_norm_type := None;
     kw_lmax_list := None;
     kw_mmax_list := None;
     kw_grid_resolution := None;
     kw_num_sphere_samples := None;
     kw_edge_channels := None;
     kw_use_atom_edge_embedding := None;
     kw_share_atom_edge_embedding := None;
     kw_use_m_share_rad := None;
     kw_distance_function := Some "sigmoid";
     kw_num_distance_basis := None;
     kw_attn_activation := None;
     kw_use_s2_act_attn := None;
     kw_use_attn_renorm := None;
     kw_ffn_activation := None;
     kw_use_gate_act := None;
     kw_use_grid_mlp := None;
     kw_use_sep_s2_act := None;
     kw_alpha_drop := None;
     kw_drop_path_rate := None;
     kw_proj_drop := None;
     kw_weight_init := None;
     kw_enforce_max_neighbors_strictly := None;
     kw_avg_num_nodes := None;
     kw_avg_degree := None;
     kw_use_energy_lin_ref := None;
     kw_load_energy_lin_ref := None;
     kw_activation_checkpoint := None |}.

(** A batch of one hydrogen and one americium atom (atomic number 95); the
    tensors the model does not look at are left trivial. *)
Definition heavy_batch : Batch unit :=
  {| natoms := tt; pos := tt; atomic_numbers := [1; 95];
     main_edge_index := tt; main_distance := tt; main_vector := tt;
     main_cell_offset := tt; main_cell_offsets_distances := tt;
     main_num_neighbors := tt; batch := tt |}.

(** A batch of a water molecule. *)
Definition water_batch : Batch unit :=
  {| natoms := tt; pos := tt; atomic_numbers := [1; 1; 8];
     main_edge_index := tt; main_distance := tt; main_vector := tt;
     main_cell_offset := tt; main_cell_offsets_distances := tt;
     main_num_neighbors := tt; batch := tt |}.

(** Layers that hand back a trivial embedding and the graph unchanged. *)
Definition trivial_layers (self : Self) (data : Batch unit)
    (graph : GraphData unit) : unit * GraphData unit + string :=
  inl (tt, graph).

End BackboneExamples.

(** * Proofs *)

(** ** The effect monad *)

Lemma bind_emit {Ev B} (ev : Ev) (k : unit -> M Ev B) :
  bind (emit ev) k = (ev :: fst (k tt), snd (k tt)).
Proof. unfold bind, emit. destruct (k tt); reflexivity. Qed.

Lemma bind_lift_ok {Ev A B} (a : A) (k : A -> M Ev B) :
  bind (lift (Ok a)) k = k a.
Proof. unfold bind, lift. destruct (k a); reflexivity. Qed.

Lemma bind_lift_err {Ev A B} (e : exn) (k : A -> M Ev B) :
  bind (lift (Err e)) k = ([], Err e).
Proof. reflexivity. Qed.

Lemma bind_ret {Ev A B} (a : A) (k : A -> M Ev B) :
  bind (ret a) k = k a.
Proof. unfold bind, ret. destruct (k a); reflexivity. Qed.

Lemma sequence_map_ok {A B} (f : A -> B) (l : list A) :
  sequence (map (fun a => Ok (f a)) l) = Ok (map f l).
Proof.
  induction l as [|a l IH]; simpl; [reflexivity|].
  rewrite IH. reflexivity.
Qed.

(** ** The worker pool *)

Section PoolFacts.
Context {B : Type}.
Variable processes : nat.
Variable func : nat -> B.
Hypothesis at_least_one_worker : 1 <= processes.

Lemma remove_nth_length j (l : list nat) :
  j < length l -> S (length (remove_nth j l)) = length l.
Proof.
  intros Hj. unfold remove_nth.
  rewrite length_app, length_firstn, length_skipn. lia.
Qed.

Lemma remove_nth_perm j (l : list nat) :
  j < length l -> Permutation l (nth j l 0 :: remove_nth j l).
Proof.
  intros Hj. unfold remove_nth.
  destruct (skipn j l) as [|a r] eqn:E.
  - exfalso. apply (f_equal (@length nat)) in E.
    rewrite length_skipn in E. simpl in E. lia.
  - assert (Hn : nth j l 0 = a).
    { rewrite <- (firstn_skipn j l), E.
      rewrite app_nth2; rewrite length_firstn;
        replace (Nat.min j (length l)) with j by lia; [|lia].
      rewrite Nat.sub_diag. reflexivity. }
    assert (Hs : skipn (S j) l = r).
    { change (S j) with (1 + j). rewrite <- skipn_skipn, E. reflexivity. }
    rewrite Hn, Hs.
    rewrite <- (firstn_skipn j l) at 1. rewrite E.
    apply Permutation_sym, Permutation_middle.
Qed.

Lemma dispatch_inv indices s :
  pool_inv func indices s -> pool_inv func indices (dispatch s).
Proof.
  intros [Hr Ha Hc]. unfold dispatch.
  destruct (tasks s) as [|i rest] eqn:E; [split; rewrite ?E; assumption|].
  split; simpl.
  - exact Hr.
  - rewrite <- Ha. apply Permutation_app_head.
    rewrite <- app_assoc. reflexivity.
  - rewrite <- Hc, <- app_assoc. reflexivity.
Qed.

Lemma complete_inv indices j s :
  j < length (running s) ->
  pool_inv func indices s -> pool_inv func indices (complete func j s).
Proof.
  intros Hj [Hr Ha Hc]. unfold complete. split; simpl.
  - apply Forall_app. split; [exact Hr|]. constructor; [reflexivity|constructor].
  - rewrite <- Ha. rewrite map_app. simpl. rewrite <- app_assoc. simpl.
    apply Permutation_app_head.
    apply Permutation_sym.
    exact (Permutation_app_tail (tasks s) (@remove_nth_perm j (running s) Hj)).
  - exact Hc.
Qed.
Lemma pool_step_inv indices choice s :
  pool_inv func indices s -> pool_inv func indices (pool_step processes func choice s).
Proof.
  intros Hinv. unfold pool_step.
  destruct ((if can_dispatch processes s then 1 else 0)
            + length (running s)) as [|e] eqn:En; [exact Hinv|].
  pose proof (Nat.mod_upper_bound choice (S e) ltac:(lia)) as Hk.
  destruct (can_dispatch processes s) eqn:Hd.
  - destruct (choice mod S e) as [|j] eqn:Ek.
    + apply dispatch_inv, Hinv.
    + apply complete_inv; [simpl in En; lia | exact Hinv].
  - apply complete_inv; [simpl in En; lia | exact Hinv].
Qed.

Lemma pool_step_work choice s :
  work_left (pool_step processes func choice s) = pred (work_left s).
Proof.
  unfold pool_step, work_left.
  destruct ((if can_dispatch processes s then 1 else 0)
            + length (running s)) as [|e] eqn:En.
  - destruct (can_dispatch processes s) eqn:Hd; [discriminate|].
    simpl in En. unfold can_dispatch in Hd.
    destruct (tasks s) as [|i rest]; [simpl; lia|].
    apply Nat.ltb_ge in Hd. lia.
  - pose proof (Nat.mod_upper_bound choice (S e) ltac:(lia)) as Hk.
    remember (choice mod S e) as k eqn:Ek. clear Ek.
    destruct (can_dispatch processes s) eqn:Hd.
    + destruct k as [|j].
      * unfold dispatch. unfold can_dispatch in Hd.
        destruct (tasks s) as [|i rest]; [discriminate|].
        simpl. rewrite length_app. simpl. lia.
      * simpl in En.
        pose proof (@remove_nth_length j (running s) ltac:(lia)).
        simpl. lia.
    + simpl in En.
      pose proof (@remove_nth_length k (running s) ltac:(lia)).
      simpl. lia.
Qed.

Lemma pool_run_inv indices sched steps : forall t s,
  pool_inv func indices s ->
  pool_inv func indices (pool_run processes func sched t steps s).
Proof.
  induction steps as [|steps IH]; intros t s Hinv; simpl; [exact Hinv|].
  apply IH, pool_step_inv, Hinv.
Qed.

Lemma pool_run_work sched steps : forall t s,
  work_left (pool_run processes func sched t steps s) = work_left s - steps.
Proof.
  induction steps as [|steps IH]; intros t s; simpl; [lia|].
  rewrite IH, pool_step_work. lia.
Qed.

Lemma imap_final_inv sched indices :
  pool_inv func indices (imap_final processes func sched indices).
Proof.
  apply pool_run_inv. split; simpl.
  - constructor.
  - reflexivity.
  - reflexivity.
Qed.

Lemma imap_final_idle sched indices :
  tasks (imap_final processes func sched indices) = [] /\
  running (imap_final processes func sched indices) = [].
Proof.
  pose proof (pool_run_work sched (2 * length indices) 0
    {| tasks := indices; running := []; finished := []; calls := [] |}) as H.
  fold (imap_final processes func sched indices) in H.
  unfold work_left in H. simpl in H.
  split; apply length_zero_iff_nil; lia.
Qed.

Lemma result_for_finished i s :
  Forall (fun p => snd p = func (fst p)) (finished s) ->
  In i (map fst (finished s)) ->
  result_for i s = Some (func i).
Proof.
  unfold result_for. intros Hall Hin.
  induction (finished s) as [|[k b] l IH]; simpl in *; [contradiction|].
  inversion Hall as [|? ? Hb Hl]; subst. simpl in Hb.
  destruct (Nat.eqb_spec k i) as [->|Hne]; simpl.
  - rewrite Hb. reflexivity.
  - apply IH; [exact Hl|]. destruct Hin as [Hk|Hin]; [contradiction|exact Hin].
Qed.

(** Whatever the schedule, the pool hands back the results of the
    sequential map, calls the function on each index once, in order, and
    is idle at the end. *)
Lemma imap_sequential sched indices :
  imap processes func sched indices = map (fun i => Some (func i)) indices
  /\ calls (imap_final processes func sched indices) = indices
  /\ pool_idle (imap_final processes func sched indices) = true.
Proof.
  destruct (imap_final_inv sched indices) as [Hr Ha Hc].
  destruct (imap_final_idle sched indices) as [Ht Hrun].
  rewrite Ht, Hrun in Ha. rewrite Ht in Hc.
  rewrite !app_nil_r in *.
  split; [|split].
  - unfold imap. apply map_ext_in. intros i Hi.
    apply result_for_finished; [exact Hr|].
    apply Permutation_in with (l := indices);
      [apply Permutation_sym, Ha | exact Hi].
  - exact Hc.
  - unfold pool_idle. rewrite Ht, Hrun. reflexivity.
Qed.
End PoolFacts.

(** ** scatter counts occurrences *)

Lemma list_set_length {A} (out : list A) i v :
  length (list_set out i v) = length out.
Proof.
  revert i. induction out as [|a out IH]; intros [|i]; simpl;
    try reflexivity.
  rewrite IH. reflexivity.
Qed.

Lemma list_set_nth (out : list Z) i v z :
  i < length out ->
  nth z (list_set out i v) 0%Z = if z =? i then v else nth z out 0%Z.
Proof.
  revert i z. induction out as [|a out IH]; intros i z Hi; simpl in Hi;
    [lia|].
  destruct i as [|i], z as [|z]; simpl; try reflexivity.
  apply IH. lia.
Qed.

Lemma list_set_sum (out : list Z) i v :
  i < length out ->
  fold_right Z.add 0%Z (list_set out i v)
  = (fold_right Z.add 0%Z out - nth i out 0 + v)%Z.
Proof.
  revert i. induction out as [|a out IH]; intros i Hi; simpl in Hi; [lia|].
  destruct i as [|i]; simpl.
  - lia.
  - rewrite IH by lia. lia.
Qed.

Lemma scatter_add_ones n index : forall out,
  length out = n ->
  Forall (fun z => z < n) index ->
  exists x,
    scatter_add_ out index (torch_ones (length index)) = Ok x
    /\ length x = n
    /\ (forall z, nth z x 0%Z
                  = (nth z out 0 + Z.of_nat (count_occ Nat.eq_dec index z))%Z)
    /\ fold_right Z.add 0%Z x
       = (fold_right Z.add 0%Z out + Z.of_nat (length index))%Z.
Proof.
  induction index as [|i index IH]; intros out Hlen Hall.
  - exists out. simpl. repeat split; try assumption; intros; lia.
  - inversion Hall as [|? ? Hi Hrest]; subst.
    simpl scatter_add_. unfold torch_ones. simpl repeat.
    fold (torch_ones (length index)).
    destruct (Nat.ltb_spec i (length out)) as [Hlt|Hge]; [|lia].
    destruct (IH (list_set out i (nth i out 0 + 1)%Z)) as (x & Hx & Hl & Hn & Hs).
    { rewrite list_set_length. reflexivity. }
    { exact Hrest. }
    exists x. split; [exact Hx|]. split; [exact Hl|]. split.
    + intros z. rewrite Hn, list_set_nth by exact Hlt.
      simpl count_occ.
      destruct (Nat.eq_dec i z) as [->|Hne].
      * rewrite Nat.eqb_refl. lia.
      * destruct (Nat.eqb_spec z i); [congruence|]. lia.
    + rewrite Hs, list_set_sum by exact Hlt. simpl length. lia.
Qed.

Lemma nth_repeat_zero n z : nth z (repeat 0%Z n) 0%Z = 0%Z.
Proof.
  revert z. induction n as [|n IH]; intros [|z]; simpl; auto.
Qed.

Lemma sum_repeat_zero n : fold_right Z.add 0%Z (repeat 0%Z n) = 0%Z.
Proof. induction n as [|n IH]; simpl; [reflexivity|exact IH]. Qed.

(** The scatter of ones over atomic numbers below 10 is the vector of atom
    counts. *)
Lemma scatter_atom_counts atoms :
  Forall (fun z => z < 10) atoms ->
  scatter (torch_ones (length atoms)) atoms 10
  = Ok (Reference.atom_counts atoms).
Proof.
  intros Hall. unfold scatter.
  destruct (@scatter_add_ones 10 atoms (repeat 0%Z 10) eq_refl Hall)
    as (x & Hx & Hl & Hn & _).
  rewrite Hx. f_equal.
  apply (nth_ext x (Reference.atom_counts atoms) 0%Z 0%Z).
  - rewrite Hl. reflexivity.
  - intros z Hz. rewrite Hl in Hz. rewrite Hn, nth_repeat_zero.
    unfold Reference.atom_counts.
    rewrite (nth_indep _ 0%Z (Z.of_nat (count_occ Nat.eq_dec atoms 0)))
      by (rewrite length_map, length_seq; exact Hz).
    rewrite (map_nth (fun z => Z.of_nat (count_occ Nat.eq_dec atoms z))).
    rewrite seq_nth by exact Hz. reflexivity.
Qed.

Lemma atom_counts_sum atoms :
  Forall (fun z => z < 10) atoms ->
  Reference.Zsum (Reference.atom_counts atoms) = Z.of_nat (length atoms).
Proof.
  intros Hall.
  destruct (@scatter_add_ones 10 atoms (repeat 0%Z 10) eq_refl Hall)
    as (x & Hx & _ & _ & Hs).
  pose proof (scatter_atom_counts Hall) as Hc. unfold scatter in Hc.
  rewrite Hx in Hc. injection Hc as <-.
  unfold Reference.Zsum. rewrite Hs, sum_repeat_zero. lia.
Qed.


(** ** The preprocessing script *)

Module Trans1xLinearRefProofs.
Import Trans1xLinearRef Reference.

Lemma bind_ok {Ev A B} (t : list Ev) (a : A) (k : A -> M Ev B) :
  bind (t, Ok a) k = (t ++ fst (k a), snd (k a)).
Proof. unfold bind. destruct (k a); reflexivity. Qed.

(** The pool's [imap], collected, is the list comprehension. *)
Lemma imap_list_sequential {C} (w : World) pool (func : nat -> result C)
    indices :
  1 <= pool ->
  imap_list w pool func indices = sequential_list func indices.
Proof.
  intros Hpool. unfold imap_list, sequential_list.
  destruct (imap_sequential func Hpool (schedule w) indices) as [-> _].
  rewrite map_map. reflexivity.
Qed.

Lemma Pool_int (w : World) n :
  (1 <= n)%Z ->
  Pool w (VInt n) = ([PoolCreated (Z.to_nat n)], Ok (Z.to_nat n)).
Proof.
  intros Hn. unfold Pool.
  destruct (Z.ltb_spec n 1) as [Hlt|_]; [lia|]. reflexivity.
Qed.

(** Going through a list by index is going through its entries. *)
Lemma map_getitem {C} (g : Data -> result C) (ds : list Data) :
  map (fun idx => data <-? getitem ds idx ;; g data) (seq 0 (length ds))
  = map g ds.
Proof.
  assert (H : forall pre,
    map (fun idx => data <-? getitem (pre ++ ds) idx ;; g data)
        (seq (length pre) (length ds)) = map g ds).
  { induction ds as [|d ds IH]; intros pre; simpl; [reflexivity|].
    f_equal.
    - unfold getitem. rewrite nth_error_app2 by lia.
      rewrite Nat.sub_diag. reflexivity.
    - specialize (IH (pre ++ [d])).
      rewrite <- app_assoc, length_app in IH. simpl in IH.
      rewrite Nat.add_1_r in IH. exact IH. }
  exact (H []).
Qed.

Lemma mean_std_outputs w args ds :
  compute_mean_std.dataset w args = Ok ds ->
  sequential_list (compute_mean_std.extract_data w args) (seq 0 (length ds))
  = Ok (map (fun d => (y d, force d)) ds).
Proof.
  intros Hds. unfold sequential_list.
  rewrite (map_ext (compute_mean_std.extract_data w args)
             (fun idx => data <-? getitem ds idx ;; Ok (y data, force data))).
  - rewrite map_getitem. apply sequence_map_ok.
  - intros idx. unfold compute_mean_std.extract_data. rewrite Hds. reflexivity.
Qed.

Lemma sequence_map_in_ok {A C} (g : A -> result C) (h : A -> C) (l : list A) :
  (forall a, In a l -> g a = Ok (h a)) ->
  sequence (map g l) = Ok (map h l).
Proof.
  induction l as [|a l IH]; intros Hg; simpl; [reflexivity|].
  rewrite (Hg a (or_introl eq_refl)). simpl.
  rewrite IH by (intros; apply Hg; right; assumption). reflexivity.
Qed.

Lemma linref_extract_row w args ds idx d :
  linref.dataset w args = Ok ds ->
  nth_error ds idx = Some d ->
  small_atoms d ->
  linref.extract_data w args idx
  = Ok (atom_counts (atomic_numbers d), y d, force d).
Proof.
  intros Hds Hd Hsmall. unfold linref.extract_data, getitem.
  rewrite Hds. simpl. rewrite Hd. simpl.
  rewrite (scatter_atom_counts Hsmall). reflexivity.
Qed.

Lemma linref_outputs w args ds :
  linref.dataset w args = Ok ds ->
  Forall small_atoms ds ->
  sequential_list (linref.extract_data w args) (seq 0 (length ds))
  = Ok (map (fun d => (atom_counts (atomic_numbers d), y d, force d)) ds).
Proof.
  intros Hds Hall. unfold sequential_list.
  rewrite (map_ext (linref.extract_data w args)
             (fun idx => data <-? getitem ds idx ;;
                (x <-? scatter (torch_ones (length (atomic_numbers data)))
                               (atomic_numbers data) 10 ;;
                 Ok (x, y data, force data)))).
  - rewrite map_getitem. apply sequence_map_in_ok.
    intros d Hd. rewrite Forall_forall in Hall.
    rewrite (scatter_atom_counts (Hall d Hd)). reflexivity.
  - intros idx. unfold linref.extract_data. rewrite Hds. reflexivity.
Qed.

Lemma atom_counts_length atoms : length (atom_counts atoms) = 10.
Proof. reflexivity. Qed.

Lemma vstack_design_matrix ds :
  ds <> [] ->
  np_vstack (design_matrix ds) = Ok (design_matrix ds).
Proof.
  intros Hne. destruct ds as [|d ds]; [contradiction|].
  unfold design_matrix. simpl map. unfold np_vstack.
  rewrite (proj2 (forallb_forall _ _)); [reflexivity|].
  intros r Hr. apply in_map_iff in Hr. destruct Hr as (d' & <- & _).
  reflexivity.
Qed.

Lemma linref_features ds :
  map (fun x : list Z * R * list Vec3 => fst (fst x))
      (map (fun d => (atom_counts (atomic_numbers d), y d, force d)) ds)
  = design_matrix ds.
Proof. rewrite map_map. reflexivity. Qed.

Lemma linref_targets ds :
  map (fun x : list Z * R * list Vec3 => snd (fst x))
      (map (fun d => (atom_counts (atomic_numbers d), y d, force d)) ds)
  = energy_targets ds.
Proof. rewrite map_map. reflexivity. Qed.

(** What a run of [_linref] does on a non-empty dataset of small atoms. *)
Lemma linref_run lstsq w args ds n out coeff :
  linref.dataset w args = Ok ds ->
  ds <> [] ->
  Forall small_atoms ds ->
  getattr args "num_workers" = Ok (VInt n) ->
  (1 <= n)%Z ->
  getattr args "out_path" = Ok (VPath out) ->
  lstsq (design_matrix ds) (energy_targets ds) = inl coeff ->
  _linref lstsq w args
  = ([PoolCreated (Z.to_nat n);
      SavezCompressed out [("coeff", coeff)];
      Print [Lit "Saved linear reference coefficients to "; Obj (VPath out)]],
     Ok tt).
Proof.
  intros Hds Hne Hall Hnw Hn Hout Hsolve. unfold _linref.
  rewrite Hnw, bind_lift_ok, (Pool_int w Hn), bind_ok.
  rewrite Hds, bind_lift_ok.
  rewrite imap_list_sequential by lia.
  rewrite (linref_outputs w args Hds Hall), bind_lift_ok.
  rewrite linref_features, linref_targets.
  rewrite (vstack_design_matrix Hne), bind_lift_ok.
  rewrite Hsolve, bind_lift_ok.
  rewrite Hout, bind_lift_ok. simpl as_file. rewrite bind_lift_ok.
  reflexivity.
Qed.

(** *** numpy's statistics are the textbook ones *)














Lemma mean_std_energies ds :
  map fst (map (fun d => (y d, force d)) ds) = energy_targets ds.
Proof. rewrite map_map. reflexivity. Qed.

Lemma mean_std_forces ds :
  all_forces (map (fun d => (y d, force d)) ds) = atom_forces ds.
Proof.
  unfold all_forces, atom_forces.
  induction ds as [|d ds IH]; simpl; [reflexivity|].
  rewrite IH. reflexivity.
Qed.

(** *** The claims about [linref] *)






(** C9. In [linref], the feature row extracted for a sample whose atomic
    numbers are all below 10 has exactly 10 entries, entry [z] is the number
    of atoms of atomic number [z], and the row sums to the number of atoms;
    so the coefficient array saved for a non-empty dataset of such samples,
    which the solver returns with one entry per column, has exactly 10
    entries. *)
Theorem linref_feature_rows
    (lstsq : list (list Z) -> list R -> list R + string) w args ds :
  linref.dataset w args = Ok ds ->
  (forall X y c, lstsq X y = inl c -> length c = ncols X) ->
  (forall idx d,
      nth_error ds idx = Some d ->
      small_atoms d ->
      exists x,
        linref.extract_data w args idx = Ok (x, y d, force d)
        /\ length x = 10
        /\ (forall z, z < 10 ->
              nth z x 0%Z
              = Z.of_nat (count_occ Nat.eq_dec (atomic_numbers d) z))
        /\ Zsum x = Z.of_nat (length (atomic_numbers d)))
  /\ (forall n out coeff,
        ds <> [] ->
        Forall small_atoms ds ->
        getattr args "num_workers" = Ok (VInt n) ->
        (1 <= n)%Z ->
        getattr args "out_path" = Ok (VPath out) ->
        lstsq (design_matrix ds) (energy_targets ds) = inl coeff ->
        In (SavezCompressed out [("coeff", coeff)])
           (trace_of (_linref lstsq w args))
        /\ outcome (_linref lstsq w args) = Ok tt
        /\ length coeff = 10).
Proof.
  intros Hds Hshape. split.
  - intros idx d Hd Hsmall.
    exists (atom_counts (atomic_numbers d)).
    split; [apply (linref_extract_row w args idx Hds Hd Hsmall)|].
    split; [reflexivity|]. split.
    + intros z Hz. unfold atom_counts.
      rewrite (nth_indep _ 0%Z
                 (Z.of_nat (count_occ Nat.eq_dec (atomic_numbers d) 0)))
        by (rewrite length_map, length_seq; exact Hz).
      rewrite (map_nth (fun z => Z.of_nat
                                   (count_occ Nat.eq_dec (atomic_numbers d) z))).
      rewrite seq_nth by exact Hz. reflexivity.
    + apply atom_counts_sum, Hsmall.
  - intros n out coeff Hne Hall Hnw Hn Hout Hsolve.
    rewrite (@linref_run lstsq w args ds n out coeff
               Hds Hne Hall Hnw Hn Hout Hsolve).
    split; [right; left; reflexivity|]. split; [reflexivity|].
    rewrite (Hshape _ _ _ Hsolve).
    destruct ds as [|d ds]; [contradiction|]. reflexivity.
Qed.

Lemma linref_feature_rows_witness :
  (forall idx d,
      nth_error [Examples.water; Examples.methane] idx = Some d ->
      small_atoms d ->
      exists x,
        linref.extract_data Examples.machine Examples.linref_args idx
        = Ok (x, y d, force d)
        /\ length x = 10
        /\ (forall z, z < 10 ->
              nth z x 0%Z
              = Z.of_nat (count_occ Nat.eq_dec (atomic_numbers d) z))
        /\ Zsum x = Z.of_nat (length (atomic_numbers d)))
  /\ (forall n out coeff,
        [Examples.water; Examples.methane] <> [] ->
        Forall small_atoms [Examples.water; Examples.methane] ->
        getattr Examples.linref_args "num_workers" = Ok (VInt n) ->
        (1 <= n)%Z ->
        getattr Examples.linref_args "out_path" = Ok (VPath out) ->
        Examples.zero_solver
          (design_matrix [Examples.water; Examples.methane])
          (energy_targets [Examples.water; Examples.methane]) = inl coeff ->
        In (SavezCompressed out [("coeff", coeff)])
           (trace_of (_linref Examples.zero_solver Examples.machine
                        Examples.linref_args))
        /\ outcome (_linref Examples.zero_solver Examples.machine
                      Examples.linref_args) = Ok tt
        /\ length coeff = 10).
Proof.
  apply (@linref_feature_rows Examples.zero_solver Examples.machine
           Examples.linref_args [Examples.water; Examples.methane]).
  - reflexivity.
  - intros X y c H. injection H as <-. apply repeat_length.
Defined.

(** The rows extracted for the two example molecules. *)
Example water_row :
  linref.extract_data Examples.machine Examples.linref_args 0
  = Ok ([0; 2; 0; 0; 0; 0; 0; 0; 1; 0]%Z, 3%R,
        [(1, 0, 0); (0, 1, 0); (0, 0, 2)]%R).
Proof. reflexivity. Qed.

Example methane_row :
  option_map (fun o => fst (fst o))
    (match linref.extract_data Examples.machine Examples.linref_args 1 with
     | Ok o => Some o
     | Err _ => None
     end)
  = Some [0; 4; 0; 0; 0; 0; 1; 0; 0; 0]%Z.
Proof. reflexivity. Qed.

(** *** The claims about [compute_mean_std] *)



(** The mean energy of the two example molecules is 4. *)
Example example_energy_mean :
  arithmetic_mean (energy_targets [Examples.water; Examples.methane]) = 4%R.
Proof. unfold arithmetic_mean. simpl. lra. Qed.

(** *** The worker pool against the sequential computation *)

Lemma compute_mean_std_sequential w args n :
  getattr args "num_workers" = Ok (VInt n) ->
  (1 <= n)%Z ->
  _compute_mean_std w args
  = (emit (PoolCreated (Z.to_nat n)) ;; sequential_compute_mean_std w args).
Proof.
  intros Hnw Hn. unfold _compute_mean_std, sequential_compute_mean_std.
  rewrite Hnw, bind_lift_ok, (Pool_int w Hn), bind_ok, bind_emit.
  destruct (compute_mean_std.dataset w args) as [ds|e]; [|reflexivity].
  rewrite !bind_lift_ok.
  rewrite imap_list_sequential by lia. reflexivity.
Qed.

Lemma linref_sequential lstsq w args n :
  getattr args "num_workers" = Ok (VInt n) ->
  (1 <= n)%Z ->
  _linref lstsq w args
  = (emit (PoolCreated (Z.to_nat n)) ;; sequential_linref lstsq w args).
Proof.
  intros Hnw Hn. unfold _linref, sequential_linref.
  rewrite Hnw, bind_lift_ok, (Pool_int w Hn), bind_ok, bind_emit.
  destruct (linref.dataset w args) as [ds|e]; [|reflexivity].
  rewrite !bind_lift_ok.
  rewrite imap_list_sequential by lia. reflexivity.
Qed.

(** C3. In both subcommands, whatever the scheduling of the workers, the
    pool calls the extraction function on every index [0 .. len-1] exactly
    once, hands the results back in index order, and has finished all of
    them when the list is complete; the run of each subcommand is therefore
    the one of the sequential computation over the same dataset, preceded by
    the creation of the pool. *)
Theorem pool_map_is_sequential
    (lstsq : list (list Z) -> list R -> list R + string) w args n :
  getattr args "num_workers" = Ok (VInt n) ->
  (1 <= n)%Z ->
  (forall (C : Type) (func : nat -> result C) len,
      calls (imap_final (Z.to_nat n) func (schedule w) (seq 0 len))
      = seq 0 len
      /\ pool_idle (imap_final (Z.to_nat n) func (schedule w) (seq 0 len))
         = true
      /\ imap_list w (Z.to_nat n) func (seq 0 len)
         = sequential_list func (seq 0 len))
  /\ _compute_mean_std w args
     = (emit (PoolCreated (Z.to_nat n)) ;; sequential_compute_mean_std w args)
  /\ _linref lstsq w args
     = (emit (PoolCreated (Z.to_nat n)) ;; sequential_linref lstsq w args).
Proof.
  intros Hnw Hn.
  assert (Hpool : 1 <= Z.to_nat n) by lia.
  split; [|split].
  - intros C func len.
    destruct (imap_sequential func Hpool (schedule w) (seq 0 len))
      as (_ & Hcalls & Hidle).
    split; [exact Hcalls|]. split; [exact Hidle|].
    apply imap_list_sequential, Hpool.
  - apply compute_mean_std_sequential; assumption.
  - apply linref_sequential; assumption.
Qed.

Lemma pool_map_is_sequential_witness :
  (forall (C : Type) (func : nat -> result C) len,
      calls (imap_final (Z.to_nat 4) func (schedule Examples.machine)
               (seq 0 len))
      = seq 0 len
      /\ pool_idle (imap_final (Z.to_nat 4) func (schedule Examples.machine)
                      (seq 0 len))
         = true
      /\ imap_list Examples.machine (Z.to_nat 4) func (seq 0 len)
         = sequential_list func (seq 0 len))
  /\ _compute_mean_std Examples.machine Examples.linref_args
     = (emit (PoolCreated (Z.to_nat 4)) ;;
        sequential_compute_mean_std Examples.machine Examples.linref_args)
  /\ _linref Examples.zero_solver Examples.machine Examples.linref_args
     = (emit (PoolCreated (Z.to_nat 4)) ;;
        sequential_linref Examples.zero_solver Examples.machine
          Examples.linref_args).
Proof.
  apply (@pool_map_is_sequential Examples.zero_solver Examples.machine
           Examples.linref_args 4%Z).
  - reflexivity.
  - lia.
Defined.

(** *** The shape of a run *)




(** *** The command line *)











(** *** The size of the pool *)










End Trans1xLinearRefProofs.

(** ** The backbone *)

Module EquiformerV2BackboneProofs.
Import EquiformerV2Backbone Reference.

Lemma str_in_one s a : str_in s [a] = true <-> s = a.
Proof.
  unfold str_in. simpl. rewrite orb_false_r. apply String.eqb_eq.
Qed.

Lemma str_in_two s a b : str_in s [a; b] = false <-> s <> a /\ s <> b.
Proof.
  unfold str_in. simpl. rewrite orb_false_r.
  destruct (String.eqb_spec s a) as [Ha|Ha], (String.eqb_spec s b) as [Hb|Hb];
    simpl; split; try tauto; try discriminate; intros [H1 H2]; congruence.
Qed.

Lemma rejected_spec kw : rejected kw = true <-> invalid_configuration kw.
Proof.
  unfold rejected, invalid_configuration.
  rewrite !orb_true_iff, !andb_true_iff, !negb_true_iff.
  rewrite str_in_two.
  assert (Hd : str_in (param (kw_distance_function kw) "gaussian") ["gaussian"]
               = false
               <-> param (kw_distance_function kw) "gaussian" <> "gaussian").
  { rewrite <- str_in_one.
    destruct (str_in (param (kw_distance_function kw) "gaussian")
                ["gaussian"]); split; intros; try congruence. }
  rewrite Hd. tauto.
Qed.

Lemma construct_run rt c {B} (k : unit -> M event B) :
  bind (construct rt c) k
  = match raises rt c with
    | Some cls => ([], Err (Library cls))
    | None => (Constructed c :: fst (k tt), snd (k tt))
    end.
Proof.
  unfold construct. destruct (raises rt c); [reflexivity|apply bind_emit].
Qed.

Lemma assert_run cond msg {B} (k : unit -> M event B) :
  bind (assert_ cond msg) k
  = if cond then k tt else ([], Err (AssertionError msg)).
Proof.
  unfold assert_. destruct cond; [apply bind_ret|reflexivity].
Qed.

(** The four tests of the constructor, as they read its arguments. *)
Ltac name_tests kw :=
  let share := fresh "share" in
  let atom := fresh "atom" in
  let use_ref := fresh "use_ref" in
  let load_ref := fresh "load_ref" in
  let init_ok := fresh "init_ok" in
  let dist_ok := fresh "dist_ok" in
  remember (param (kw_share_atom_edge_embedding kw) false) as share;
  remember (param (kw_use_atom_edge_embedding kw) true) as atom;
  remember (truthy (param (kw_use_energy_lin_ref kw) (Some false))) as use_ref;
  remember (truthy (param (kw_load_energy_lin_ref kw) (Some false)))
    as load_ref;
  remember (str_in (param (kw_weight_init kw) "uniform") ["normal"; "uniform"])
    as init_ok;
  remember (str_in (param (kw_distance_function kw) "gaussian") ["gaussian"])
    as dist_ok.

Lemma init_without_e3nn rt kw :
  str_in "e3nn" (sys_modules rt) = false ->
  __init__ rt kw
  = ([Module_init;
      LoggingError "You need to install e3nn==0.4.4 to use EquiformerV2."],
     Err ImportError).
Proof.
  intros He. unfold __init__. cbv zeta. rewrite He. reflexivity.
Qed.

Lemma init_succeeds rt kw :
  str_in "e3nn" (sys_modules rt) = true ->
  (forall c, raises rt c = None) ->
  rejected kw = false ->
  exists self,
    outcome (__init__ rt kw) = Ok self
    /\ trace_of (__init__ rt kw)
       = [Module_init;
          Constructed (nn_Embedding (max_num_elements self)
                         (sphere_channels_all self));
          Constructed (GaussianSmearing 0 (cutoff self) 600 2);
          Constructed Layers]
    /\ lmax_list self = match kw_lmax_list kw with
                        | None => [4%Z]
                        | Some None => [6%Z]
                        | Some (Some l) => l
                        end
    /\ mmax_list self = match kw_mmax_list kw with
                        | None => [2%Z]
                        | Some None => [2%Z]
                        | Some (Some l) => l
                        end.
Proof.
  intros He Hraises Hok. unfold rejected in Hok.
  unfold __init__. cbv zeta. rewrite He. simpl negb. cbv iota.
  rewrite bind_emit, bind_ret.
  assert (Hg : String.eqb (param (kw_distance_function kw) "gaussian")
                 "gaussian"
               = str_in (param (kw_distance_function kw) "gaussian")
                   ["gaussian"]).
  { unfold str_in. simpl. rewrite orb_false_r. reflexivity. }
  rewrite Hg.
  name_tests kw.
  destruct share, atom, use_ref, load_ref, init_ok, dist_ok;
    try discriminate Hok;
    repeat first [rewrite assert_run | rewrite bind_ret
                 | rewrite construct_run | rewrite Hraises
                 | progress cbv iota | progress simpl negb
                 | progress simpl andb];
    (eexists; split; [reflexivity|]; split; [reflexivity|];
     simpl lmax_list; simpl mmax_list;
     split; [destruct (kw_lmax_list kw) as [[l|]|]
            |destruct (kw_mmax_list kw) as [[l|]|]]; reflexivity).
Qed.

Ltac run_init Hemb :=
  repeat first [rewrite assert_run | rewrite bind_ret
               | rewrite construct_run | rewrite Hemb
               | progress cbv iota | progress simpl negb
               | progress simpl andb].

(** With [e3nn] imported and the embedding table built, a rejected
    configuration ends the constructor in one of its assertions. *)
Lemma init_rejects rt kw :
  str_in "e3nn" (sys_modules rt) = true ->
  (forall n d, raises rt (nn_Embedding n d) = None) ->
  rejected kw = true ->
  exists msg, outcome (__init__ rt kw) = Err (AssertionError msg).
Proof.
  intros He Hemb Hrej. unfold rejected in Hrej.
  unfold __init__. cbv zeta. rewrite He. simpl negb. cbv iota.
  rewrite bind_emit, bind_ret.
  name_tests kw.
  destruct share, atom, use_ref, load_ref, init_ok, dist_ok;
    try discriminate Hrej;
    run_init Hemb;
    eexists; reflexivity.
Qed.

(** A configuration that is not rejected never ends the constructor in an
    assertion. *)
Lemma init_accepts rt kw msg :
  rejected kw = false ->
  outcome (__init__ rt kw) <> Err (AssertionError msg).
Proof.
  intros Hok.
  destruct (str_in "e3nn" (sys_modules rt)) eqn:He;
    [|rewrite (@init_without_e3nn rt kw He); discriminate].
  unfold rejected in Hok.
  unfold __init__. cbv zeta. rewrite He. simpl negb. cbv iota.
  rewrite bind_emit, bind_ret.
  assert (Hg : String.eqb (param (kw_distance_function kw) "gaussian")
                 "gaussian"
               = str_in (param (kw_distance_function kw) "gaussian")
                   ["gaussian"]).
  { unfold str_in. simpl. rewrite orb_false_r. reflexivity. }
  rewrite Hg.
  name_tests kw.
  destruct share, atom, use_ref, load_ref, init_ok, dist_ok;
    try discriminate Hok;
    run_init Hg;
    repeat match goal with
           | |- context [raises rt ?c] => destruct (raises rt c)
           end;
    run_init Hg; discriminate.
Qed.

(** C6, as stated, fails: when [e3nn] was not imported, a configuration that
    shares the atom edge embedding without using it ends the constructor
    with an ImportError, not with an assertion error. *)
Lemma invalid_configuration_without_e3nn :
  invalid_configuration
    BackboneExamples.shared_embedding_without_atom_embedding
  /\ __init__ BackboneExamples.without_e3nn
       BackboneExamples.shared_embedding_without_atom_embedding
     = ([Module_init;
         LoggingError "You need to install e3nn==0.4.4 to use EquiformerV2."],
        Err ImportError)
  /\ ~ (forall rt kw,
          (exists msg, outcome (__init__ rt kw) = Err (AssertionError msg))
          <-> invalid_configuration kw).
Proof.
  assert (Hinv : invalid_configuration
                   BackboneExamples.shared_embedding_without_atom_embedding).
  { left. split; reflexivity. }
  split; [exact Hinv|]. split; [reflexivity|].
  intros H.
  destruct (proj2 (H BackboneExamples.without_e3nn
                     BackboneExamples.shared_embedding_without_atom_embedding)
              Hinv) as [msg Hmsg].
  discriminate Hmsg.
Qed.

(** The [distance_function] assertion comes after the embedding table is
    built: when torch refuses the table, the invalid distance function is
    never looked at. *)
Example invalid_configuration_embedding_raises :
  invalid_configuration BackboneExamples.sigmoid_distance_negative_elements
  /\ __init__ BackboneExamples.strict_embedding
       BackboneExamples.sigmoid_distance_negative_elements
     = ([Module_init], Err (Library "RuntimeError")).
Proof.
  split; [|reflexivity].
  right. right. right. discriminate.
Qed.

(** C6, amended. When [e3nn] was imported and the construction of the
    embedding table does not raise, the constructor ends in an assertion
    error exactly when the configuration is invalid: the atom edge embedding
    is shared but not used, or [use_energy_lin_ref] is true while
    [load_energy_lin_ref] is false or [None], or [weight_init] is neither
    ['normal'] nor ['uniform'], or [distance_function] is not ['gaussian'].
    For every other combination all four assertions pass. *)
Theorem assertion_error_iff_invalid rt kw :
  str_in "e3nn" (sys_modules rt) = true ->
  (forall n d, raises rt (nn_Embedding n d) = None) ->
  (exists msg, outcome (__init__ rt kw) = Err (AssertionError msg))
  <-> invalid_configuration kw.
Proof.
  intros He Hemb. rewrite <- rejected_spec. split.
  - intros [msg Hmsg]. destruct (rejected kw) eqn:Hr; [reflexivity|].
    exfalso. exact (@init_accepts rt kw msg Hr Hmsg).
  - apply init_rejects; assumption.
Qed.

Lemma assertion_error_iff_invalid_witness :
  (exists msg,
      outcome (__init__ BackboneExamples.with_e3nn
                 BackboneExamples.lin_ref_used_not_loaded)
      = Err (AssertionError msg))
  <-> invalid_configuration BackboneExamples.lin_ref_used_not_loaded.
Proof.
  apply (@assertion_error_iff_invalid BackboneExamples.with_e3nn
           BackboneExamples.lin_ref_used_not_loaded).
  - reflexivity.
  - intros n d. reflexivity.
Defined.

(** C8. When [e3nn] is not among the imported modules, the constructor logs
    an error and raises ImportError; at that point it has initialised the
    module base class and built no component of the model. *)
Theorem import_error_without_e3nn rt kw :
  str_in "e3nn" (sys_modules rt) = false ->
  outcome (__init__ rt kw) = Err ImportError
  /\ trace_of (__init__ rt kw)
     = [Module_init;
        LoggingError "You need to install e3nn==0.4.4 to use EquiformerV2."]
  /\ forall c, ~ In (Constructed c) (trace_of (__init__ rt kw)).
Proof.
  intros He. rewrite (@init_without_e3nn rt kw He).
  split; [reflexivity|]. split; [reflexivity|].
  intros c [H|[H|[]]]; discriminate H.
Qed.

Lemma import_error_without_e3nn_witness :
  outcome (__init__ BackboneExamples.without_e3nn no_kwargs) = Err ImportError
  /\ trace_of (__init__ BackboneExamples.without_e3nn no_kwargs)
     = [Module_init;
        LoggingError "You need to install e3nn==0.4.4 to use EquiformerV2."]
  /\ forall c,
       ~ In (Constructed c)
            (trace_of (__init__ BackboneExamples.without_e3nn no_kwargs)).
Proof.
  apply (@import_error_without_e3nn BackboneExamples.without_e3nn no_kwargs).
  reflexivity.
Defined.

(** C10. A call that the interpreter, the framework and the assertions let
    through yields [self.lmax_list == [6]] when [lmax_list=None] is passed
    and [[4]] when the argument is left out, and [self.mmax_list == [2]] in
    both cases for [mmax_list]; a list that is passed is kept. *)
Theorem lmax_list_none_is_not_default rt kw :
  str_in "e3nn" (sys_modules rt) = true ->
  (forall c, raises rt c = None) ->
  ~ invalid_configuration kw ->
  exists self,
    outcome (__init__ rt kw) = Ok self
    /\ lmax_list self = match kw_lmax_list kw with
                        | None => [4%Z]
                        | Some None => [6%Z]
                        | Some (Some l) => l
                        end
    /\ mmax_list self = match kw_mmax_list kw with
                        | None => [2%Z]
                        | Some None => [2%Z]
                        | Some (Some l) => l
                        end.
Proof.
  intros He Hraises Hvalid.
  assert (Hok : rejected kw = false).
  { destruct (rejected kw) eqn:Hr; [|reflexivity].
    exfalso. apply Hvalid, rejected_spec, Hr. }
  destruct (@init_succeeds rt kw He Hraises Hok) as (self & Hout & _ & Hl & Hm).
  exists self. repeat split; assumption.
Qed.

Lemma valid_lists_passed_as_None :
  ~ invalid_configuration BackboneExamples.lists_passed_as_None.
Proof.
  rewrite <- rejected_spec. discriminate.
Qed.

Lemma lmax_list_none_is_not_default_witness :
  exists self,
    outcome (__init__ BackboneExamples.with_e3nn
               BackboneExamples.lists_passed_as_None) = Ok self
    /\ lmax_list self = [6%Z]
    /\ mmax_list self = [2%Z].
Proof.
  apply (@lmax_list_none_is_not_default BackboneExamples.with_e3nn
           BackboneExamples.lists_passed_as_None).
  - reflexivity.
  - intros c. reflexivity.
  - exact valid_lists_passed_as_None.
Defined.

(** Leaving both arguments out gives [[4]] and [[2]]. *)
Example lists_left_out :
  exists self,
    outcome (__init__ BackboneExamples.with_e3nn no_kwargs) = Ok self
    /\ lmax_list self = [4%Z]
    /\ mmax_list self = [2%Z].
Proof. eexists. repeat split. Qed.

(** *** forward *)

Lemma fold_left_max_upper (t : list nat) : forall a,
  a <= fold_left Nat.max t a
  /\ Forall (fun z => z <= fold_left Nat.max t a) t.
Proof.
  induction t as [|b t IH]; intros a; simpl.
  - split; [lia|constructor].
  - destruct (IH (Nat.max a b)) as [H1 H2]. split; [lia|].
    constructor; [lia|exact H2].
Qed.

Lemma fold_left_max_in (t : list nat) : forall a,
  fold_left Nat.max t a = a \/ In (fold_left Nat.max t a) t.
Proof.
  induction t as [|b t IH]; intros a; simpl.
  - left. reflexivity.
  - destruct (IH (Nat.max a b)) as [H|H].
    + rewrite H. destruct (Nat.max_spec a b) as [[_ ->]|[_ ->]]; auto.
    + right. right. exact H.
Qed.

(** [tensor_max] is the largest entry. *)
Lemma tensor_max_spec t :
  match tensor_max t with
  | Ok m => In m t /\ Forall (fun z => z <= m) t
  | Err e => t = [] /\ e = Library "RuntimeError"
  end.
Proof.
  destruct t as [|a t]; simpl; [split; reflexivity|].
  destruct (fold_left_max_upper t a) as [H1 H2].
  split.
  - destruct (fold_left_max_in t a) as [->|H]; auto.
  - constructor; assumption.
Qed.

(** C7, as stated, fails: on a batch that holds an atom of atomic number 95,
    the model built with the default arguments (at most 90 elements) prints
    that it skips the sample and returns [None]: neither the result
    dictionary nor an exception. *)
Lemma forward_skips_heavy_batch :
  match outcome (__init__ BackboneExamples.with_e3nn no_kwargs) with
  | Ok self =>
      forward BackboneExamples.trivial_layers self BackboneExamples.heavy_batch
      = ([Print skip_message], Ok None)
      /\ ~ ((exists out,
               outcome (forward BackboneExamples.trivial_layers self
                          BackboneExamples.heavy_batch) = Ok (Some out))
            \/ (exists e,
                  outcome (forward BackboneExamples.trivial_layers self
                             BackboneExamples.heavy_batch) = Err e))
  | Err _ => False
  end.
Proof.
  vm_compute. split; [reflexivity|].
  intros [[out H]|[e H]]; discriminate H.
Qed.

(** C7, amended. When some atomic number of the batch is not below
    [max_num_elements], [forward] prints that it skips the sample and
    returns [None].  Otherwise it prints nothing and either returns the
    dictionary of the node embedding and the graph the layers produced, or
    lets through the exception raised inside the framework. *)
Theorem forward_outcomes (Tensor SO3_Embedding : Type)
    (layers : Self -> Batch Tensor -> GraphData Tensor ->
              SO3_Embedding * GraphData Tensor + string)
    (self : Self) (data : Batch Tensor) :
  (Exists (fun z => (max_num_elements self <= Z.of_nat z)%Z)
          (atomic_numbers data) ->
   forward layers self data = ([Print skip_message], Ok None))
  /\ (Forall (fun z => (Z.of_nat z < max_num_elements self)%Z)
             (atomic_numbers data) ->
      (exists x g,
          forward layers self data
          = ([], Ok (Some {| node_embedding := x; graph := g |})))
      \/ (exists cls, forward layers self data = ([], Err (Library cls)))).
Proof.
  unfold forward.
  pose proof (tensor_max_spec (atomic_numbers data)) as Hmax.
  destruct (tensor_max (atomic_numbers data)) as [m|e].
  - destruct Hmax as [Hin Hall]. rewrite bind_lift_ok.
    destruct (Z.leb_spec (max_num_elements self) (Z.of_nat m)) as [Hle|Hlt].
    + split.
      * intros _. reflexivity.
      * intros Hsmall. rewrite Forall_forall in Hsmall.
        specialize (Hsmall m Hin). lia.
    + split.
      * intros Hex. apply Exists_exists in Hex.
        destruct Hex as (z & Hz & Hbig).
        rewrite Forall_forall in Hall. specialize (Hall z Hz). lia.
      * intros _.
        destruct (layers self data _) as [[x g]|cls].
        -- left. exists x, g. reflexivity.
        -- right. exists cls. reflexivity.
  - destruct Hmax as [Hnil ->]. split.
    + intros Hex. rewrite Hnil in Hex. inversion Hex.
    + intros _. right. exists "RuntimeError". reflexivity.
Qed.

Lemma forward_outcomes_witness :
  exists self,
    outcome (__init__ BackboneExamples.with_e3nn no_kwargs) = Ok self
    /\ forward BackboneExamples.trivial_layers self
         BackboneExamples.heavy_batch
       = ([Print skip_message], Ok None).
Proof.
  eexists. split; [reflexivity|].
  apply (proj1 (forward_outcomes BackboneExamples.trivial_layers _
                  BackboneExamples.heavy_batch)).
  right. left. vm_compute. discriminate.
Defined.

End EquiformerV2BackboneProofs.

(** ** The preprocessing script: errors and edge cases *)

Module Trans1xLinearRefEdgeCases.
Import Trans1xLinearRef Reference Trans1xLinearRefProofs EdgeExamples.

(** What [_compute_mean_std] does on any dataset it can open, in terms of
    numpy's functions. *)
Lemma compute_mean_std_run w args ds n ov :
  compute_mean_std.dataset w args = Ok ds ->
  getattr args "num_workers" = Ok (VInt n) ->
  (1 <= n)%Z ->
  getattr args "out_path" = Ok ov ->
  let energy_mean := mean_of (energy_targets ds) in
  let energy_std := np_std (energy_targets ds) in
  let force_rms := np_sqrt (np_mean (np_square (np_array (atom_forces ds)))) in
  let force_md :=
    np_mean (np_linalg_norm_last_axis (np_array (atom_forces ds))) in
  let line := [Lit "energy_mean: "; Num energy_mean;
               Lit ", energy_std: "; Num energy_std;
               Lit ", force_rms: "; Num force_rms;
               Lit ", force_md: "; Num force_md] in
  _compute_mean_std w args
  = match as_file ov with
    | Ok f =>
        ([PoolCreated (Z.to_nat n); Print line;
          PickleDump f [("energy_mean", energy_mean);
                        ("energy_std", energy_std);
                        ("force_rms", force_rms);
                        ("force_md", force_md)]],
         Ok tt)
    | Err e => ([PoolCreated (Z.to_nat n); Print line], Err e)
    end.
Proof.
  intros Hds Hnw Hn Hout. cbv zeta. unfold _compute_mean_std.
  rewrite Hnw, bind_lift_ok, (Pool_int w Hn), bind_ok.
  rewrite Hds, bind_lift_ok.
  rewrite imap_list_sequential by lia.
  rewrite (mean_std_outputs w args Hds), bind_lift_ok.
  rewrite mean_std_energies, mean_std_forces.
  rewrite bind_emit.
  rewrite Hout, bind_lift_ok.
  destruct (as_file ov) as [f|e]; [rewrite bind_lift_ok|]; reflexivity.
Qed.

(** X1. With a worker count below 1 both subcommands stop with the pool's
    ValueError before they open the dataset: no process is started, nothing
    is printed and no file is written. *)
Theorem no_worker_no_run
    (lstsq : list (list Z) -> list R -> list R + string) w args n :
  getattr args "num_workers" = Ok (VInt n) ->
  (n < 1)%Z ->
  _compute_mean_std w args = ([], Err (Library "ValueError"))
  /\ _linref lstsq w args = ([], Err (Library "ValueError")).
Proof.
  intros Hnw Hn.
  assert (Hp : Pool w (VInt n) = ([], Err (Library "ValueError"))).
  { unfold Pool. destruct (Z.ltb_spec n 1); [reflexivity|lia]. }
  unfold _compute_mean_std, _linref.
  rewrite Hnw, !bind_lift_ok, Hp. split; reflexivity.
Qed.

Lemma no_worker_no_run_witness :
  _compute_mean_std Examples.machine
    (setattr Examples.mean_std_args "num_workers" (VInt 0))
  = ([], Err (Library "ValueError"))
  /\ _linref Examples.zero_solver Examples.machine
       (setattr Examples.mean_std_args "num_workers" (VInt 0))
     = ([], Err (Library "ValueError")).
Proof.
  apply (@no_worker_no_run Examples.zero_solver Examples.machine
           (setattr Examples.mean_std_args "num_workers" (VInt 0)) 0%Z).
  - reflexivity.
  - lia.
Defined.

(** X2. On an empty dataset [linref] creates the pool and then stops with
    the ValueError of [np.vstack]: no coefficients are saved and nothing is
    printed. *)
Theorem linref_empty_dataset
    (lstsq : list (list Z) -> list R -> list R + string) w args n :
  linref.dataset w args = Ok [] ->
  getattr args "num_workers" = Ok (VInt n) ->
  (1 <= n)%Z ->
  _linref lstsq w args
  = ([PoolCreated (Z.to_nat n)], Err (Library "ValueError")).
Proof.
  intros Hds Hnw Hn. unfold _linref.
  rewrite Hnw, bind_lift_ok, (Pool_int w Hn), bind_ok.
  rewrite Hds, bind_lift_ok.
  rewrite imap_list_sequential by lia.
  reflexivity.
Qed.

Lemma linref_empty_dataset_witness :
  _linref Examples.zero_solver (EdgeExamples.machine_with [])
    Examples.linref_args
  = ([PoolCreated 4], Err (Library "ValueError")).
Proof.
  apply (@linref_empty_dataset Examples.zero_solver
           (EdgeExamples.machine_with []) Examples.linref_args 4%Z).
  - reflexivity.
  - reflexivity.
  - lia.
Defined.

Lemma np_std_empty : np_std [] = NaN.
Proof. reflexivity. Qed.




(** *** Atomic numbers that do not fit the feature row *)

Lemma scatter_add_out_of_range index : forall out,
  Exists (fun z => length out <= z) index ->
  scatter_add_ out index (torch_ones (length index))
  = Err (Library "RuntimeError").
Proof.
  induction index as [|i index IH]; intros out Hex.
  - inversion Hex.
  - simpl. destruct (Nat.ltb_spec i (length out)) as [Hlt|Hge];
      [|reflexivity].
    fold (torch_ones (length index)). apply IH.
    rewrite list_set_length.
    inversion Hex as [? ? Hhead|? ? Htail]; subst; [lia|exact Htail].
Qed.

Lemma heavy_or_small d : has_heavy_atom d \/ small_atoms d.
Proof.
  unfold has_heavy_atom, small_atoms.
  destruct (Forall_Exists_dec (fun z => z < 10)
              (fun z => lt_dec z 10) (atomic_numbers d)) as [H|H].
  - right. exact H.
  - left. apply Exists_exists in H. destruct H as (z & Hz & Hn).
    apply Exists_exists. exists z. split; [exact Hz|lia].
Qed.

Lemma sequence_first_error {A C} (g : A -> result C) e0 (l : list A) :
  (forall a, In a l -> (exists v, g a = Ok v) \/ g a = Err e0) ->
  (exists a, In a l /\ g a = Err e0) ->
  sequence (map g l) = Err e0.
Proof.
  induction l as [|a l IH]; intros Hall [b [Hb Hgb]]; [contradiction|].
  simpl. destruct (Hall a (or_introl eq_refl)) as [[v Hv]|He].
  - rewrite Hv. simpl. rewrite IH; [reflexivity| |].
    + intros a' Ha'. apply Hall. right. exact Ha'.
    + destruct Hb as [->|Hb]; [congruence|]. exists b. split; assumption.
  - rewrite He. reflexivity.
Qed.

(** X4. When some sample of the dataset has an atomic number of 10 or more,
    [linref] creates the pool and then stops with the RuntimeError that
    [scatter] raises for the index outside the 10 entries: no coefficients
    are saved and nothing is printed. *)
Theorem linref_heavy_atom
    (lstsq : list (list Z) -> list R -> list R + string) w args ds n :
  linref.dataset w args = Ok ds ->
  Exists has_heavy_atom ds ->
  getattr args "num_workers" = Ok (VInt n) ->
  (1 <= n)%Z ->
  _linref lstsq w args
  = ([PoolCreated (Z.to_nat n)], Err (Library "RuntimeError")).
Proof.
  intros Hds Hex Hnw Hn. unfold _linref.
  rewrite Hnw, bind_lift_ok, (Pool_int w Hn), bind_ok.
  rewrite Hds, bind_lift_ok.
  rewrite imap_list_sequential by lia.
  unfold sequential_list.
  rewrite (map_ext (linref.extract_data w args)
             (fun idx => data <-? getitem ds idx ;;
                (x <-? scatter (torch_ones (length (atomic_numbers data)))
                               (atomic_numbers data) 10 ;;
                 Ok (x, y data, force data))))
    by (intros idx; unfold linref.extract_data; rewrite Hds; reflexivity).
  rewrite map_getitem.
  rewrite (@sequence_first_error _ _ _ (Library "RuntimeError")).
  - reflexivity.
  - intros d _. destruct (heavy_or_small d) as [Hh|Hs].
    + right. unfold scatter.
      rewrite scatter_add_out_of_range; [reflexivity|exact Hh].
    + left. rewrite (scatter_atom_counts Hs). eexists. reflexivity.
  - apply Exists_exists in Hex. destruct Hex as (d & Hd & Hh).
    exists d. split; [exact Hd|]. unfold scatter.
    rewrite scatter_add_out_of_range; [reflexivity|exact Hh].
Qed.

Lemma linref_heavy_atom_witness :
  _linref Examples.zero_solver
    (EdgeExamples.machine_with [Examples.water; EdgeExamples.argon])
    Examples.linref_args
  = ([PoolCreated 4], Err (Library "RuntimeError")).
Proof.
  apply (@linref_heavy_atom Examples.zero_solver
           (EdgeExamples.machine_with [Examples.water; EdgeExamples.argon])
           Examples.linref_args [Examples.water; EdgeExamples.argon] 4%Z).
  - reflexivity.
  - right. left. left. unfold EdgeExamples.argon. simpl. lia.
  - reflexivity.
  - lia.
Defined.

(** *** A run without [--out_path] *)

Lemma linref_run_any_path lstsq w args ds n ov coeff :
  linref.dataset w args = Ok ds ->
  ds <> [] ->
  Forall small_atoms ds ->
  getattr args "num_workers" = Ok (VInt n) ->
  (1 <= n)%Z ->
  getattr args "out_path" = Ok ov ->
  lstsq (design_matrix ds) (energy_targets ds) = inl coeff ->
  _linref lstsq w args
  = match as_file ov with
    | Ok file =>
        ([PoolCreated (Z.to_nat n);
          SavezCompressed file [("coeff", coeff)];
          Print [Lit "Saved linear reference coefficients to "; Obj ov]],
         Ok tt)
    | Err e => ([PoolCreated (Z.to_nat n)], Err e)
    end.
Proof.
  intros Hds Hne Hall Hnw Hn Hout Hsolve. unfold _linref.
  rewrite Hnw, bind_lift_ok, (Pool_int w Hn), bind_ok.
  rewrite Hds, bind_lift_ok.
  rewrite imap_list_sequential by lia.
  rewrite (linref_outputs w args Hds Hall), bind_lift_ok.
  rewrite linref_features, linref_targets.
  rewrite (vstack_design_matrix Hne), bind_lift_ok.
  rewrite Hsolve, bind_lift_ok.
  rewrite Hout, bind_lift_ok.
  destruct (as_file ov) as [file|e]; [rewrite bind_lift_ok|]; reflexivity.
Qed.

(** X5. When [--out_path] is not given ([args.out_path] is [None]), both
    subcommands do all their work and then stop with a TypeError at the
    write: [compute_mean_std] has printed the statistics and pickles
    nothing, [linref] has solved the regression and neither saves nor
    prints. *)
Theorem missing_out_path
    (lstsq : list (list Z) -> list R -> list R + string) w args n :
  getattr args "num_workers" = Ok (VInt n) ->
  (1 <= n)%Z ->
  getattr args "out_path" = Ok VNone ->
  (forall ds,
      compute_mean_std.dataset w args = Ok ds ->
      exists line,
        _compute_mean_std w args
        = ([PoolCreated (Z.to_nat n); Print line], Err (Library "TypeError")))
  /\ (forall ds coeff,
        linref.dataset w args = Ok ds ->
        ds <> [] ->
        Forall small_atoms ds ->
        lstsq (design_matrix ds) (energy_targets ds) = inl coeff ->
        _linref lstsq w args
        = ([PoolCreated (Z.to_nat n)], Err (Library "TypeError"))).
Proof.
  intros Hnw Hn Hout. split.
  - intros ds Hds.
    rewrite (compute_mean_std_run w args Hds Hnw Hn Hout). simpl as_file.
    eexists. reflexivity.
  - intros ds coeff Hds Hne Hall Hsolve.
    rewrite (@linref_run_any_path lstsq w args ds n VNone coeff
               Hds Hne Hall Hnw Hn Hout Hsolve).
    reflexivity.
Qed.

Lemma missing_out_path_witness :
  (forall ds,
      compute_mean_std.dataset Examples.machine
        EdgeExamples.args_without_out_path = Ok ds ->
      exists line,
        _compute_mean_std Examples.machine EdgeExamples.args_without_out_path
        = ([PoolCreated (Z.to_nat 4); Print line],
           Err (Library "TypeError")))
  /\ (forall ds coeff,
        linref.dataset Examples.machine EdgeExamples.args_without_out_path
        = Ok ds ->
        ds <> [] ->
        Forall small_atoms ds ->
        Examples.zero_solver (design_matrix ds) (energy_targets ds)
        = inl coeff ->
        _linref Examples.zero_solver Examples.machine
          EdgeExamples.args_without_out_path
        = ([PoolCreated (Z.to_nat 4)], Err (Library "TypeError"))).
Proof.
  apply (@missing_out_path Examples.zero_solver Examples.machine
           EdgeExamples.args_without_out_path 4%Z).
  - reflexivity.
  - lia.
  - reflexivity.
Defined.


(** *** Relations between the statistics *)














End Trans1xLinearRefEdgeCases.

(** ** The backbone: what the constructor establishes *)

Module EquiformerV2BackboneProperties.
Import EquiformerV2Backbone Reference EquiformerV2BackboneProofs.
Import BackboneUpdates.

(** The attributes of an object the constructor returned, read off its
    arguments. *)
Lemma init_attributes rt kw self :
  outcome (__init__ rt kw) = Ok self ->
  str_in "e3nn" (sys_modules rt) = true
  /\ rejected kw = false
  /\ share_atom_edge_embedding self
     = param (kw_share_atom_edge_embedding kw) false
  /\ use_atom_edge_embedding self
     = param (kw_use_atom_edge_embedding kw) true
  /\ block_use_atom_edge_embedding self
     = (use_atom_edge_embedding self
        && negb (share_atom_edge_embedding self))
  /\ use_energy_lin_ref self = param (kw_use_energy_lin_ref kw) (Some false)
  /\ load_energy_lin_ref self
     = param (kw_load_energy_lin_ref kw) (Some false)
  /\ weight_init self = param (kw_weight_init kw) "uniform"
  /\ distance_function self = param (kw_distance_function kw) "gaussian"
  /\ cutoff self = max_radius self
  /\ avg_num_nodes self
     = float_or (param (kw_avg_num_nodes kw) None) _AVG_NUM_NODES
  /\ avg_degree self = float_or (param (kw_avg_degree kw) None) _AVG_DEGREE
  /\ num_resolutions self = Z.of_nat (length (lmax_list self))
  /\ sphere_channels_all self
     = (num_resolutions self * sphere_channels self)%Z
  /\ device self = "cpu"
  /\ grad_forces self = false.
Proof.
  intros Hout.
  destruct (str_in "e3nn" (sys_modules rt)) eqn:He;
    [|rewrite (@init_without_e3nn rt kw He) in Hout; discriminate Hout].
  split; [reflexivity|].
  revert Hout. unfold __init__. cbv zeta. rewrite He.
  simpl negb. cbv iota.
  rewrite bind_emit, bind_ret.
  assert (Hg : String.eqb (param (kw_distance_function kw) "gaussian")
                 "gaussian"
               = str_in (param (kw_distance_function kw) "gaussian")
                   ["gaussian"]).
  { unfold str_in. simpl. rewrite orb_false_r. reflexivity. }
  rewrite Hg. unfold rejected.
  remember (param (kw_share_atom_edge_embedding kw) false) as share.
  remember (param (kw_use_atom_edge_embedding kw) true) as atom.
  remember (truthy (param (kw_use_energy_lin_ref kw) (Some false)))
    as use_ref.
  remember (truthy (param (kw_load_energy_lin_ref kw) (Some false)))
    as load_ref.
  remember (str_in (param (kw_weight_init kw) "uniform") ["normal"; "uniform"])
    as init_ok.
  remember (str_in (param (kw_distance_function kw) "gaussian") ["gaussian"])
    as dist_ok.
  clear Heqshare Heqatom Hequse_ref Heqload_ref Heqinit_ok Heqdist_ok.
  destruct share, atom, use_ref, load_ref, init_ok, dist_ok;
    run_init Hg;
    repeat match goal with
           | |- context [raises rt ?c] => destruct (raises rt c)
           end;
    run_init Hg;
    unfold outcome; cbn [snd];
    intros Hout; try discriminate Hout;
    injection Hout as <-;
    cbn [share_atom_edge_embedding use_atom_edge_embedding
         block_use_atom_edge_embedding use_energy_lin_ref
         load_energy_lin_ref weight_init distance_function cutoff max_radius
         avg_num_nodes avg_degree num_resolutions lmax_list
         sphere_channels_all sphere_channels device grad_forces
         andb negb orb];
    repeat split; reflexivity.
Qed.

(** X9. Every object the constructor returns satisfies what its assertions
    check and what its assignments derive: a shared atom edge embedding is
    used and the blocks then do not embed atoms themselves, and otherwise
    the blocks do what [use_atom_edge_embedding] says; the linear reference
    is loaded when it is used; [weight_init] is ['normal'] or ['uniform'];
    [distance_function] is ['gaussian']; the cutoff is the maximum radius;
    there is one resolution per entry of [lmax_list], with
    [sphere_channels] channels each; the device is ['cpu'] and forces are
    not taken from gradients. *)
Theorem constructed_object_invariant rt kw self :
  outcome (__init__ rt kw) = Ok self ->
  (share_atom_edge_embedding self = true ->
   use_atom_edge_embedding self = true
   /\ block_use_atom_edge_embedding self = false)
  /\ (share_atom_edge_embedding self = false ->
      block_use_atom_edge_embedding self = use_atom_edge_embedding self)
  /\ (truthy (use_energy_lin_ref self) = true ->
      truthy (load_energy_lin_ref self) = true)
  /\ (weight_init self = "normal" \/ weight_init self = "uniform")
  /\ distance_function self = "gaussian"
  /\ cutoff self = max_radius self
  /\ num_resolutions self = Z.of_nat (length (lmax_list self))
  /\ sphere_channels_all self
     = (Z.of_nat (length (lmax_list self)) * sphere_channels self)%Z
  /\ device self = "cpu"
  /\ grad_forces self = false.
Proof.
  intros Hout.
  destruct (init_attributes rt kw Hout)
    as (_ & Hrej & Hs & Ha & Hb & Hu & Hl & Hw & Hd & Hc & _ & _ & Hn & Hall
        & Hdev & Hgrad).
  unfold rejected in Hrej.
  rewrite <- Hs, <- Ha, <- Hu, <- Hl, <- Hw, <- Hd in Hrej.
  apply orb_false_iff in Hrej. destruct Hrej as [Hrej Hdist].
  apply orb_false_iff in Hrej. destruct Hrej as [Hrej Hinit].
  apply orb_false_iff in Hrej. destruct Hrej as [Hshare Href].
  apply negb_false_iff in Hdist, Hinit.
  repeat split.
  - destruct (use_atom_edge_embedding self); [reflexivity|].
    rewrite H in Hshare. discriminate Hshare.
  - rewrite Hb, H. destruct (use_atom_edge_embedding self); reflexivity.
  - intros H. rewrite Hb, H. apply andb_true_r.
  - intros H. rewrite H in Href.
    destruct (truthy (load_energy_lin_ref self)); [reflexivity|].
    discriminate Href.
  - destruct (String.string_dec (weight_init self) "normal") as [E|E];
      [left; exact E|right].
    destruct (String.string_dec (weight_init self) "uniform") as [E'|E'];
      [exact E'|].
    exfalso. assert (Hfalse : str_in (weight_init self) ["normal"; "uniform"]
                              = false) by (apply str_in_two; auto).
    congruence.
  - apply str_in_one, Hdist.
  - exact Hc.
  - exact Hn.
  - rewrite Hall, Hn. reflexivity.
  - exact Hdev.
  - exact Hgrad.
Qed.

Lemma constructed_object_invariant_witness :
  match outcome (__init__ BackboneExamples.with_e3nn no_kwargs) with
  | Ok self =>
      (share_atom_edge_embedding self = true ->
       use_atom_edge_embedding self = true
       /\ block_use_atom_edge_embedding self = false)
      /\ (share_atom_edge_embedding self = false ->
          block_use_atom_edge_embedding self = use_atom_edge_embedding self)
      /\ (truthy (use_energy_lin_ref self) = true ->
          truthy (load_energy_lin_ref self) = true)
      /\ (weight_init self = "normal" \/ weight_init self = "uniform")
      /\ distance_function self = "gaussian"
      /\ cutoff self = max_radius self
      /\ num_resolutions self = Z.of_nat (length (lmax_list self))
      /\ sphere_channels_all self
         = (Z.of_nat (length (lmax_list self)) * sphere_channels self)%Z
      /\ device self = "cpu"
      /\ grad_forces self = false
  | Err _ => False
  end.
Proof.
  destruct (outcome (__init__ BackboneExamples.with_e3nn no_kwargs))
    as [self|e] eqn:Hout.
  - exact (@constructed_object_invariant BackboneExamples.with_e3nn no_kwargs
             self Hout).
  - discriminate Hout.
Defined.

(** X10. The averages fall back to the IS2RE statistics whenever the
    argument is left out, is [None], or is zero: [x or default] treats 0.0
    like a missing value.  Any other number, negative ones and [nan]
    included, is kept. *)
Theorem averages_default_on_zero rt kw self :
  outcome (__init__ rt kw) = Ok self ->
  avg_num_nodes self
  = match kw_avg_num_nodes kw with
    | Some (Some v) => if PrimFloat.eqb v 0 then _AVG_NUM_NODES else v
    | _ => _AVG_NUM_NODES
    end
  /\ avg_degree self
     = match kw_avg_degree kw with
       | Some (Some v) => if PrimFloat.eqb v 0 then _AVG_DEGREE else v
       | _ => _AVG_DEGREE
       end.
Proof.
  intros Hout.
  destruct (init_attributes rt kw Hout)
    as (_ & _ & _ & _ & _ & _ & _ & _ & _ & _ & Hn & Hd & _).
  rewrite Hn, Hd. unfold float_or, param.
  split.
  - destruct (kw_avg_num_nodes kw) as [[v|]|]; reflexivity.
  - destruct (kw_avg_degree kw) as [[v|]|]; reflexivity.
Qed.

Lemma averages_default_on_zero_witness :
  match outcome (__init__ BackboneExamples.with_e3nn zero_average) with
  | Ok self =>
      avg_num_nodes self = _AVG_NUM_NODES
      /\ avg_degree self = (-2.5)%float
  | Err _ => False
  end.
Proof.
  destruct (outcome (__init__ BackboneExamples.with_e3nn zero_average))
    as [self|e] eqn:Hout.
  - exact (@averages_default_on_zero BackboneExamples.with_e3nn zero_average
             self Hout).
  - discriminate Hout.
Defined.

(** X11. The constructor ends with the assertion error that explains the
    linear-reference flags exactly when [e3nn] was imported, the check of
    the shared atom edge embedding passed, and [use_energy_lin_ref] is true
    while [load_energy_lin_ref] is not; it has then built no component. *)
Theorem lin_ref_message_iff rt kw :
  (outcome (__init__ rt kw) = Err (AssertionError lin_ref_message)
   <-> str_in "e3nn" (sys_modules rt) = true
       /\ (param (kw_share_atom_edge_embedding kw) false
           && negb (param (kw_use_atom_edge_embedding kw) true)) = false
       /\ truthy (param (kw_use_energy_lin_ref kw) (Some false)) = true
       /\ truthy (param (kw_load_energy_lin_ref kw) (Some false)) = false)
  /\ (outcome (__init__ rt kw) = Err (AssertionError lin_ref_message) ->
      trace_of (__init__ rt kw) = [Module_init]).
Proof.
  destruct (str_in "e3nn" (sys_modules rt)) eqn:He.
  2:{ rewrite (@init_without_e3nn rt kw He). split; [split|].
      - discriminate.
      - intros [H _]. discriminate H.
      - discriminate. }
  unfold __init__. cbv zeta. rewrite He. simpl negb. cbv iota.
  rewrite bind_emit, bind_ret.
  assert (Hg : String.eqb (param (kw_distance_function kw) "gaussian")
                 "gaussian"
               = str_in (param (kw_distance_function kw) "gaussian")
                   ["gaussian"]).
  { unfold str_in. simpl. rewrite orb_false_r. reflexivity. }
  rewrite Hg.
  remember (param (kw_share_atom_edge_embedding kw) false) as share.
  remember (param (kw_use_atom_edge_embedding kw) true) as atom.
  remember (truthy (param (kw_use_energy_lin_ref kw) (Some false)))
    as use_ref.
  remember (truthy (param (kw_load_energy_lin_ref kw) (Some false)))
    as load_ref.
  remember (str_in (param (kw_weight_init kw) "uniform") ["normal"; "uniform"])
    as init_ok.
  remember (str_in (param (kw_distance_function kw) "gaussian") ["gaussian"])
    as dist_ok.
  clear Heqshare Heqatom Hequse_ref Heqload_ref Heqinit_ok Heqdist_ok.
  destruct share, atom, use_ref, load_ref, init_ok, dist_ok;
    run_init Hg;
    repeat match goal with
           | |- context [raises rt ?c] => destruct (raises rt c)
           end;
    run_init Hg;
    unfold outcome, trace_of, lin_ref_message; cbn [fst snd andb negb];
    (split; [split|]);
    try (intros H; discriminate H);
    try (intros (_ & H1 & H2 & H3); discriminate);
    try (intros _; repeat split; reflexivity).
Qed.

(** X12. The constructor never raises the ValueError of the branch that
    follows the [distance_function] assertion: the assertion has already
    stopped every call that would reach it. *)
Theorem constructor_never_raises_ValueError rt kw :
  outcome (__init__ rt kw) <> Err ValueError.
Proof.
  destruct (str_in "e3nn" (sys_modules rt)) eqn:He;
    [|rewrite (@init_without_e3nn rt kw He); discriminate].
  unfold __init__. cbv zeta. rewrite He. simpl negb. cbv iota.
  rewrite bind_emit, bind_ret.
  assert (Hg : String.eqb (param (kw_distance_function kw) "gaussian")
                 "gaussian"
               = str_in (param (kw_distance_function kw) "gaussian")
                   ["gaussian"]).
  { unfold str_in. simpl. rewrite orb_false_r. reflexivity. }
  rewrite Hg.
  name_tests kw.
  destruct share, atom, use_ref, load_ref, init_ok, dist_ok;
    run_init Hg;
    repeat match goal with
           | |- context [raises rt ?c] => destruct (raises rt c)
           end;
    run_init Hg; discriminate.
Qed.


(** Asking for 64 basis functions builds what the default call builds. *)
Example sixty_four_basis_functions :
  trace_of (__init__ BackboneExamples.with_e3nn
              (with_num_distance_basis (Some 64%Z) no_kwargs))
  = [Module_init; Constructed (nn_Embedding 90 128);
     Constructed (GaussianSmearing 0 12 600 2); Constructed Layers].
Proof. reflexivity. Qed.

End EquiformerV2BackboneProperties.

(** ** The backbone: graph-parallel partitions *)

Module GraphParallelProperties.
Import EquiformerV2Backbone EquiformerV2BackboneMethods.
Import EquiformerV2BackboneProofs.

(** The entries of [l] at which the mask holds. *)
Lemma index_select_cons {A} (t : list A) i idx :
  index_select t (i :: idx)
  = match nth_error t i with
    | Some a =>
        match index_select t idx with
        | Ok l => Ok (a :: l)
        | Err e => Err e
        end
    | None => Err (Library "IndexError")
    end.
Proof.
  unfold index_select. simpl. destruct (nth_error t i); reflexivity.
Qed.

Lemma index_select_where {A} (l : list A) : forall cond pre,
  length cond = length l ->
  index_select (pre ++ l) (where_from (length pre) cond)
  = Ok (map fst (filter snd (combine l cond))).
Proof.
  induction l as [|a l IH]; intros cond pre Hlen.
  - destruct cond; [reflexivity|discriminate].
  - destruct cond as [|b cond]; [discriminate|].
    injection Hlen as Hlen.
    specialize (IH cond (pre ++ [a])).
    rewrite <- app_assoc, length_app in IH. simpl in IH.
    rewrite Nat.add_1_r in IH. specialize (IH Hlen).
    simpl. destruct b; simpl.
    + rewrite index_select_cons, nth_error_app2 by lia.
      rewrite Nat.sub_diag. simpl. rewrite IH. reflexivity.
    + exact IH.
Qed.

Lemma index_select_mask {A} (l : list A) cond :
  length cond = length l ->
  index_select l (torch_where cond)
  = Ok (map fst (filter snd (combine l cond))).
Proof. intros H. exact (index_select_where l cond [] H). Qed.

Lemma masked_edges (keep : nat * nat -> bool) edges :
  map fst (filter snd (combine edges (map keep edges))) = filter keep edges.
Proof.
  induction edges as [|e edges IH]; simpl; [reflexivity|].
  destruct (keep e); simpl; rewrite IH; reflexivity.
Qed.

(** Masking three aligned lists with the mask of the first keeps the
    triples whose first entry passes. *)
Lemma masked_triples {B C} (keep : nat * nat -> bool) edges :
  forall (l2 : list B) (l3 : list C),
  length l2 = length edges ->
  length l3 = length edges ->
  combine (filter keep edges)
    (combine (map fst (filter snd (combine l2 (map keep edges))))
             (map fst (filter snd (combine l3 (map keep edges)))))
  = filter (fun t => keep (fst t)) (combine edges (combine l2 l3)).
Proof.
  induction edges as [|e edges IH]; intros l2 l3 H2 H3.
  - reflexivity.
  - destruct l2 as [|b l2]; [discriminate|].
    destruct l3 as [|c l3]; [discriminate|].
    injection H2 as H2. injection H3 as H3.
    simpl. destruct (keep e); simpl; rewrite IH by assumption; reflexivity.
Qed.

Lemma index_select_in_range {A} (t : list A) d idx :
  Forall (fun i => i < length t) idx ->
  index_select t idx = Ok (map (fun i => nth i t d) idx).
Proof.
  induction 1 as [|i idx Hi _ IH]; [reflexivity|].
  rewrite index_select_cons, IH.
  destruct (nth_error t i) as [a|] eqn:E.
  - simpl. f_equal. f_equal. symmetry. apply nth_error_nth, E.
  - apply nth_error_None in E. lia.
Qed.

Lemma index_select_out_of_range {A} (t : list A) idx :
  Exists (fun i => length t <= i) idx ->
  index_select t idx = Err (Library "IndexError").
Proof.
  induction idx as [|i idx IH]; intros Hex; [inversion Hex|].
  rewrite index_select_cons.
  destruct (nth_error t i) as [a|] eqn:E; [|reflexivity].
  inversion Hex as [? ? Hhead|? ? Htail]; subst.
  - assert (nth_error t i = None) by (apply nth_error_None; exact Hhead).
    congruence.
  - rewrite (IH Htail). reflexivity.
Qed.

Lemma fold_left_min_lower (t : list nat) : forall a,
  fold_left Nat.min t a <= a
  /\ Forall (fun z => fold_left Nat.min t a <= z) t.
Proof.
  induction t as [|b t IH]; intros a; simpl.
  - split; [lia|constructor].
  - destruct (IH (Nat.min a b)) as [H1 H2]. split; [lia|].
    constructor; [lia|exact H2].
Qed.

Lemma fold_left_min_in (t : list nat) : forall a,
  fold_left Nat.min t a = a \/ In (fold_left Nat.min t a) t.
Proof.
  induction t as [|b t IH]; intros a; simpl.
  - left. reflexivity.
  - destruct (IH (Nat.min a b)) as [H|H].
    + rewrite H. destruct (Nat.min_spec a b) as [[_ ->]|[_ ->]]; auto.
    + right. right. exact H.
Qed.

(** [tensor_min] is the smallest entry. *)
Lemma tensor_min_spec t :
  match tensor_min t with
  | Ok m => In m t /\ Forall (fun z => m <= z) t
  | Err e => t = [] /\ e = Library "RuntimeError"
  end.
Proof.
  destruct t as [|a t]; simpl; [split; reflexivity|].
  destruct (fold_left_min_lower t a) as [H1 H2].
  split.
  - destruct (fold_left_min_in t a) as [->|H]; auto.
  - constructor; assumption.
Qed.

(** What [_init_gp_partitions] returns for a rank that holds the nodes
    [part], when the tensors are aligned. *)
Lemma gp_run {Distance Vector : Type} (scatter : list nat -> list nat)
    full batch edges (dist : list Distance) (vec : list Vector) lo hi :
  tensor_min (scatter (seq 0 (length full))) = Ok lo ->
  tensor_max (scatter (seq 0 (length full))) = Ok hi ->
  Forall (fun i => i < length full) (scatter (seq 0 (length full))) ->
  length batch = length full ->
  length dist = length edges ->
  length vec = length edges ->
  _init_gp_partitions scatter full batch edges dist vec
  = Ok {| part_atomic_numbers :=
            map (fun i => nth i full 0) (scatter (seq 0 (length full)));
          part_data_batch :=
            map (fun i => nth i batch 0) (scatter (seq 0 (length full)));
          part_node_offset := lo;
          part_edge_index := filter (target_between lo hi) edges;
          part_edge_distance :=
            map fst (filter snd
                       (combine dist (map (target_between lo hi) edges)));
          part_edge_distance_vec :=
            map fst (filter snd
                       (combine vec (map (target_between lo hi) edges))) |}.
Proof.
  intros Hlo Hhi Hin Hb Hd Hv. unfold _init_gp_partitions.
  rewrite Hlo, Hhi. simpl result_bind.
  fold (target_between lo hi).
  rewrite !index_select_mask by (rewrite length_map; auto).
  simpl result_bind. rewrite masked_edges.
  rewrite (index_select_in_range full 0 Hin).
  assert (Hin' : Forall (fun i => i < length batch)
                   (scatter (seq 0 (length full))))
    by (rewrite Hb; exact Hin).
  rewrite (index_select_in_range batch 0 Hin').
  reflexivity.
Qed.

(** *** One rank *)

Lemma map_nth_seq_all {A} (l : list A) d :
  map (fun i => nth i l d) (seq 0 (length l)) = l.
Proof.
  apply (nth_ext _ _ d d).
  - rewrite length_map, length_seq. reflexivity.
  - intros i Hi. rewrite length_map, length_seq in Hi.
    rewrite (nth_indep _ d (nth 0 l d))
      by (rewrite length_map, length_seq; exact Hi).
    rewrite (map_nth (fun i => nth i l d)), seq_nth by exact Hi.
    reflexivity.
Qed.

Lemma tensor_bounds_seq s len :
  tensor_min (seq s (S len)) = Ok s /\ tensor_max (seq s (S len)) = Ok (s + len).
Proof.
  pose proof (tensor_min_spec (seq s (S len))) as Hmin.
  pose proof (tensor_max_spec (seq s (S len))) as Hmax.
  destruct (tensor_min (seq s (S len))) as [lo|e];
    [|destruct Hmin as [Hnil _]; discriminate Hnil].
  destruct (tensor_max (seq s (S len))) as [hi|e];
    [|destruct Hmax as [Hnil _]; discriminate Hnil].
  destruct Hmin as [Hlo Hlow], Hmax as [Hhi Hup].
  apply in_seq in Hlo, Hhi. rewrite Forall_forall in Hlow, Hup.
  assert (Hs : In s (seq s (S len))) by (apply in_seq; lia).
  assert (He : In (s + len) (seq s (S len))) by (apply in_seq; lia).
  specialize (Hlow s Hs). specialize (Hup (s + len) He).
  split; f_equal; lia.
Qed.

Lemma mask_all_true {A} (keep : nat * nat -> bool) edges :
  forall (l : list A),
  length l = length edges ->
  Forall (fun e => keep e = true) edges ->
  map fst (filter snd (combine l (map keep edges))) = l.
Proof.
  induction edges as [|e edges IH]; intros l Hlen Hall.
  - destruct l; [reflexivity|discriminate].
  - destruct l as [|a l]; [discriminate|]. injection Hlen as Hlen.
    inversion Hall as [|? ? He Hrest]; subst.
    simpl. rewrite He. simpl. rewrite IH by assumption. reflexivity.
Qed.

Lemma filter_all_true {A} (keep : A -> bool) l :
  Forall (fun e => keep e = true) l -> filter keep l = l.
Proof.
  induction 1 as [|e l He _ IH]; simpl; [reflexivity|].
  rewrite He, IH. reflexivity.
Qed.

(** X14. A rank either holds no node, and [_init_gp_partitions] stops with
    the RuntimeError of [min] on an empty tensor, or it gets: as node
    offset its smallest node; the atomic numbers and graph indices of its
    nodes; and exactly the edges whose target lies between its smallest and
    its largest node, in their order, each with its own distance and
    distance vector. *)
Theorem gp_partition_contents {Distance Vector : Type}
    (scatter : list nat -> list nat) full batch edges
    (dist : list Distance) (vec : list Vector) :
  Forall (fun i => i < length full) (scatter (seq 0 (length full))) ->
  length batch = length full ->
  length dist = length edges ->
  length vec = length edges ->
  (scatter (seq 0 (length full)) = [] ->
   _init_gp_partitions scatter full batch edges dist vec
   = Err (Library "RuntimeError"))
  /\ (scatter (seq 0 (length full)) <> [] ->
      exists lo hi r,
        _init_gp_partitions scatter full batch edges dist vec = Ok r
        /\ In lo (scatter (seq 0 (length full)))
        /\ In hi (scatter (seq 0 (length full)))
        /\ Forall (fun i => lo <= i <= hi) (scatter (seq 0 (length full)))
        /\ part_node_offset r = lo
        /\ part_atomic_numbers r
           = map (fun i => nth i full 0) (scatter (seq 0 (length full)))
        /\ part_data_batch r
           = map (fun i => nth i batch 0) (scatter (seq 0 (length full)))
        /\ part_edge_index r = filter (target_between lo hi) edges
        /\ combine (part_edge_index r)
             (combine (part_edge_distance r) (part_edge_distance_vec r))
           = filter (fun t => target_between lo hi (fst t))
               (combine edges (combine dist vec))).
Proof.
  intros Hin Hb Hd Hv. split.
  - intros Hnil. unfold _init_gp_partitions. rewrite Hnil. reflexivity.
  - intros Hne.
    pose proof (tensor_min_spec (scatter (seq 0 (length full)))) as Hmin.
    pose proof (tensor_max_spec (scatter (seq 0 (length full)))) as Hmax.
    destruct (tensor_min (scatter (seq 0 (length full)))) as [lo|e] eqn:Elo;
      [|destruct Hmin as [Hnil _]; contradiction].
    destruct (tensor_max (scatter (seq 0 (length full)))) as [hi|e] eqn:Ehi;
      [|destruct Hmax as [Hnil _]; contradiction].
    destruct Hmin as [Hlo Hlow], Hmax as [Hhi Hup].
    exists lo, hi. eexists.
    split; [exact (gp_run scatter full batch edges dist vec
                     Elo Ehi Hin Hb Hd Hv)|].
    split; [exact Hlo|]. split; [exact Hhi|]. split.
    { rewrite Forall_forall in *. intros i Hi.
      split; [apply Hlow|apply Hup]; exact Hi. }
    cbn [part_node_offset part_atomic_numbers part_data_batch
         part_edge_index part_edge_distance part_edge_distance_vec].
    repeat split; try reflexivity.
    apply masked_triples; assumption.
Qed.

Lemma gp_partition_contents_witness :
  exists lo hi r,
    _init_gp_partitions (fun t => skipn 1 t) [8; 1; 1] [0; 0; 0]
      [(1, 0); (2, 0); (0, 1); (0, 2)] [10; 20; 30; 40]%Z
      [tt; tt; tt; tt] = Ok r
    /\ In lo [1; 2]
    /\ In hi [1; 2]
    /\ Forall (fun i => lo <= i <= hi) [1; 2]
    /\ part_node_offset r = lo
    /\ part_atomic_numbers r = map (fun i => nth i [8; 1; 1] 0) [1; 2]
    /\ part_data_batch r = map (fun i => nth i [0; 0; 0] 0) [1; 2]
    /\ part_edge_index r
       = filter (target_between lo hi) [(1, 0); (2, 0); (0, 1); (0, 2)]
    /\ combine (part_edge_index r)
         (combine (part_edge_distance r) (part_edge_distance_vec r))
       = filter (fun t => target_between lo hi (fst t))
           (combine [(1, 0); (2, 0); (0, 1); (0, 2)]
              (combine [10; 20; 30; 40]%Z [tt; tt; tt; tt])).
Proof.
  apply (proj2 (@gp_partition_contents Z unit (fun t => skipn 1 t)
                  [8; 1; 1] [0; 0; 0] [(1, 0); (2, 0); (0, 1); (0, 2)]
                  [10; 20; 30; 40]%Z [tt; tt; tt; tt]
                  ltac:(repeat constructor) eq_refl eq_refl eq_refl)).
  discriminate.
Defined.

(** The second of two ranks over a water molecule keeps the two edges into
    the hydrogen atoms. *)
Example second_rank_of_water :
  _init_gp_partitions (fun t => skipn 1 t) [8; 1; 1] [0; 0; 0]
    [(1, 0); (2, 0); (0, 1); (0, 2)] [10; 20; 30; 40]%Z [tt; tt; tt; tt]
  = Ok {| part_atomic_numbers := [1; 1];
          part_data_batch := [0; 0];
          part_node_offset := 1;
          part_edge_index := [(0, 1); (0, 2)];
          part_edge_distance := [30; 40]%Z;
          part_edge_distance_vec := [tt; tt] |}.
Proof. reflexivity. Qed.

(** X15. On a single rank, which holds every node, [_init_gp_partitions]
    hands back the graph as it is, with node offset 0: provided there is a
    node and every edge points to one. *)
Theorem gp_single_rank {Distance Vector : Type} full batch edges
    (dist : list Distance) (vec : list Vector) :
  full <> [] ->
  Forall (fun e => snd e < length full) edges ->
  length batch = length full ->
  length dist = length edges ->
  length vec = length edges ->
  _init_gp_partitions (fun t => t) full batch edges dist vec
  = Ok {| part_atomic_numbers := full;
          part_data_batch := batch;
          part_node_offset := 0;
          part_edge_index := edges;
          part_edge_distance := dist;
          part_edge_distance_vec := vec |}.
Proof.
  intros Hne Hedges Hb Hd Hv.
  assert (Hlen : exists len, length full = S len).
  { destruct full as [|a full]; [contradiction|].
    exists (length full). reflexivity. }
  destruct Hlen as [len Hlen].
  destruct (tensor_bounds_seq 0 len) as [Hlo Hhi].
  rewrite <- Hlen in Hlo, Hhi.
  assert (Hin : Forall (fun i => i < length full) (seq 0 (length full))).
  { apply Forall_forall. intros i Hi. apply in_seq in Hi. lia. }
  rewrite (gp_run (fun t => t) full batch edges dist vec Hlo Hhi Hin Hb Hd Hv).
  assert (Hkeep : Forall (fun e => target_between 0 (0 + len) e = true) edges).
  { rewrite Forall_forall in *. intros e He. specialize (Hedges e He).
    unfold target_between. apply andb_true_iff. split.
    - apply Nat.leb_le. lia.
    - apply Nat.leb_le. lia. }
  rewrite (filter_all_true _ Hkeep).
  rewrite (mask_all_true _ dist Hd Hkeep), (mask_all_true _ vec Hv Hkeep).
  rewrite map_nth_seq_all.
  rewrite <- Hb. rewrite map_nth_seq_all. reflexivity.
Qed.

Lemma gp_single_rank_witness :
  _init_gp_partitions (fun t => t) [8; 1; 1] [0; 0; 0]
    [(1, 0); (2, 0); (0, 1); (0, 2)] [10; 20; 30; 40]%Z [tt; tt; tt; tt]
  = Ok {| part_atomic_numbers := [8; 1; 1];
          part_data_batch := [0; 0; 0];
          part_node_offset := 0;
          part_edge_index := [(1, 0); (2, 0); (0, 1); (0, 2)];
          part_edge_distance := [10; 20; 30; 40]%Z;
          part_edge_distance_vec := [tt; tt; tt; tt] |}.
Proof.
  apply (@gp_single_rank Z unit [8; 1; 1] [0; 0; 0]
           [(1, 0); (2, 0); (0, 1); (0, 2)] [10; 20; 30; 40]%Z
           [tt; tt; tt; tt]).
  - discriminate.
  - repeat constructor.
  - reflexivity.
  - reflexivity.
  - reflexivity.
Defined.

(** *** All the ranks together *)

Lemma seq_split (p q : list nat) : forall s n,
  p ++ q = seq s n ->
  p = seq s (length p)
  /\ q = seq (s + length p) (n - length p)
  /\ length p <= n.
Proof.
  induction p as [|a p IH]; intros s n H.
  - simpl in *. rewrite Nat.add_0_r, Nat.sub_0_r. repeat split; [exact H|lia].
  - destruct n as [|n]; [discriminate|].
    simpl in H. injection H as Ha Hrest. subst a.
    destruct (IH (S s) n Hrest) as (Hp & Hq & Hle).
    simpl. repeat split.
    + f_equal. exact Hp.
    + rewrite Hq. f_equal. lia.
    + lia.
Qed.

Lemma filter_disjoint_union {A} (f g h : A -> bool) (l : list A) :
  (forall a, In a l -> h a = f a || g a) ->
  (forall a, In a l -> f a && g a = false) ->
  Permutation (filter f l ++ filter g l) (filter h l).
Proof.
  induction l as [|a l IH]; intros Hh Hd; [reflexivity|].
  assert (IH' : Permutation (filter f l ++ filter g l) (filter h l)).
  { apply IH; intros b Hb; [apply Hh|apply Hd]; right; exact Hb. }
  specialize (Hh a (or_introl eq_refl)).
  specialize (Hd a (or_introl eq_refl)).
  simpl. destruct (f a), (g a); simpl in Hh, Hd; rewrite Hh;
    try discriminate Hd.
  - simpl. constructor. exact IH'.
  - apply Permutation_sym, Permutation_cons_app, Permutation_sym, IH'.
  - exact IH'.
Qed.

Section Tiling.
Variables Distance Vector : Type.
Variables full batch : list nat.
Variable edges : list (nat * nat).
Variable dist : list Distance.
Variable vec : list Vector.
Hypothesis batch_aligned : length batch = length full.
Hypothesis dist_aligned : length dist = length edges.
Hypothesis vec_aligned : length vec = length edges.

(** The ranks that hold the consecutive runs [parts] of the nodes
    [s .. s+n-1] get these nodes and, together, the edges into them. *)
Lemma gp_tiling_from : forall parts s n,
  concat parts = seq s n ->
  Forall (fun part => part <> []) parts ->
  s + n <= length full ->
  Forall (fun e => snd e < s + n) edges ->
  exists results,
    Forall2 (fun part r =>
               _init_gp_partitions (fun _ => part) full batch edges dist vec
               = Ok r)
            parts results
    /\ concat (map (@part_atomic_numbers Distance Vector) results)
       = map (fun i => nth i full 0) (seq s n)
    /\ concat (map (@part_data_batch Distance Vector) results)
       = map (fun i => nth i batch 0) (seq s n)
    /\ Permutation
         (concat (map (@part_edge_index Distance Vector) results))
         (filter (fun e => s <=? snd e) edges).
Proof.
  induction parts as [|p parts IH]; intros s n Hcat Hne Hfit Hedges.
  - exists []. simpl in Hcat.
    assert (n = 0) by (destruct n; [reflexivity|discriminate]). subst n.
    repeat split; try constructor.
    simpl. rewrite Nat.add_0_r in Hedges.
    rewrite (@filter_ext_in _ (fun e => s <=? snd e) (fun _ => false)),
      filter_false; [constructor|].
    intros e He. rewrite Forall_forall in Hedges. specialize (Hedges e He).
    apply Nat.leb_gt. exact Hedges.
  - simpl in Hcat. destruct (seq_split p (concat parts) s n Hcat)
      as (Hp & Hrest & Hle).
    inversion Hne as [|? ? Hp_ne Hparts_ne]; subst.
    destruct (length p) as [|len] eqn:Hlen.
    { destruct p; [contradiction|discriminate]. }
    destruct (tensor_bounds_seq s len) as [Hlo Hhi].
    rewrite <- Hp in Hlo, Hhi.
    assert (Hin : Forall (fun i => i < length full) p).
    { rewrite Hp. apply Forall_forall. intros i Hi. apply in_seq in Hi. lia. }
    pose proof (gp_run (fun _ => p) full batch edges dist vec
                  Hlo Hhi Hin batch_aligned dist_aligned vec_aligned) as Hrun.
    destruct (IH (s + S len) (n - S len) Hrest Hparts_ne ltac:(lia))
      as (results & Hall & Hatoms & Hbatch & Hperm).
    { eapply Forall_impl; [|exact Hedges]. intros e He. simpl in He. lia. }
    eexists (_ :: results). split; [constructor; [exact Hrun|exact Hall]|].
    cbn [map concat part_atomic_numbers part_data_batch part_edge_index].
    rewrite Hatoms, Hbatch, <- !map_app.
    assert (Hseq : p ++ seq (s + S len) (n - S len) = seq s n)
      by (rewrite <- Hrest; exact Hcat).
    rewrite Hseq. split; [reflexivity|]. split; [reflexivity|].
    eapply Permutation_trans;
      [apply Permutation_app_head; exact Hperm|].
    apply filter_disjoint_union.
    + intros e He. unfold target_between.
      destruct (Nat.leb_spec s (snd e)), (Nat.leb_spec (snd e) (s + len)),
        (Nat.leb_spec (s + S len) (snd e)); simpl; try reflexivity; lia.
    + intros e He. unfold target_between.
      destruct (Nat.leb_spec s (snd e)), (Nat.leb_spec (snd e) (s + len)),
        (Nat.leb_spec (s + S len) (snd e)); simpl; try reflexivity; lia.
Qed.
End Tiling.

(** X16. When the ranks hold consecutive, non-empty runs of the nodes that
    together are all the nodes, every rank gets its partition, the
    partitions of the atomic numbers and of the graph indices put end to end
    are the full tensors, and every edge goes to exactly one rank: the edge
    lists of the ranks together are a rearrangement of the edges. *)
Theorem gp_ranks_tile_the_graph {Distance Vector : Type} parts full batch
    edges (dist : list Distance) (vec : list Vector) :
  concat parts = seq 0 (length full) ->
  Forall (fun part => part <> []) parts ->
  Forall (fun e => snd e < length full) edges ->
  length batch = length full ->
  length dist = length edges ->
  length vec = length edges ->
  exists results,
    Forall2 (fun part r =>
               _init_gp_partitions (fun _ => part) full batch edges dist vec
               = Ok r)
            parts results
    /\ concat (map (@part_atomic_numbers Distance Vector) results) = full
    /\ concat (map (@part_data_batch Distance Vector) results) = batch
    /\ Permutation
         (concat (map (@part_edge_index Distance Vector) results)) edges.
Proof.
  intros Hcat Hne Hedges Hb Hd Hv.
  destruct (@gp_tiling_from Distance Vector full batch edges dist vec
              Hb Hd Hv parts 0 (length full) Hcat Hne (le_n _) Hedges)
    as (results & Hall & Hatoms & Hbatch & Hperm).
  exists results. split; [exact Hall|].
  rewrite Hatoms, Hbatch, map_nth_seq_all, <- Hb, map_nth_seq_all.
  split; [reflexivity|]. split; [reflexivity|].
  rewrite filter_true in Hperm. exact Hperm.
Qed.

Lemma gp_ranks_tile_the_graph_witness :
  exists results,
    Forall2 (fun part r =>
               _init_gp_partitions (fun _ => part) [8; 1; 1] [0; 0; 0]
                 [(1, 0); (2, 0); (0, 1); (0, 2)] [10; 20; 30; 40]%Z
                 [tt; tt; tt; tt]
               = Ok r)
            [[0]; [1; 2]] results
    /\ concat (map (@part_atomic_numbers Z unit) results) = [8; 1; 1]
    /\ concat (map (@part_data_batch Z unit) results) = [0; 0; 0]
    /\ Permutation
         (concat (map (@part_edge_index Z unit) results))
         [(1, 0); (2, 0); (0, 1); (0, 2)].
Proof.
  apply (@gp_ranks_tile_the_graph Z unit [[0]; [1; 2]] [8; 1; 1] [0; 0; 0]
           [(1, 0); (2, 0); (0, 1); (0, 2)] [10; 20; 30; 40]%Z
           [tt; tt; tt; tt]).
  - reflexivity.
  - repeat constructor; discriminate.
  - repeat constructor.
  - reflexivity.
  - reflexivity.
  - reflexivity.
Defined.

End GraphParallelProperties.

(** ** [no_weight_decay] *)

Module NoWeightDecayProperties.
Import EquiformerV2Backbone EquiformerV2BackboneMethods ModuleExamples.

Lemma str_in_In s l : str_in s l = true <-> In s l.
Proof.
  unfold str_in. rewrite existsb_exists. split.
  - intros (a & Ha & Heq). apply String.eqb_eq in Heq. subst a. exact Ha.
  - intros H. exists s. split; [exact H|apply String.eqb_refl].
Qed.

Lemma global_names_cons name m p params :
  global_names name m (p :: params)
  = if is_linear (class m) && contains "weight" p
    then global_names name m params
    else (name ++ "." ++ p)%string :: global_names name m params.
Proof.
  unfold global_names. cbn [filter]. unfold kept at 1.
  destruct (is_linear (class m) && contains "weight" p); reflexivity.
Qed.

Lemma parameters_loop_spec ps name m : forall params acc,
  (Forall (fun g => In g ps) (global_names name m params)
   /\ parameters_loop ps name m params acc
      = Ok (acc ++ global_names name m params))
  \/ (Exists (fun g => ~ In g ps) (global_names name m params)
      /\ parameters_loop ps name m params acc = Err (AssertionError "")).
Proof.
  induction params as [|p params IH]; intros acc.
  - left. split; [constructor|]. simpl. rewrite app_nil_r. reflexivity.
  - rewrite global_names_cons. cbn [parameters_loop].
    destruct (is_linear (class m) && contains "weight" p) eqn:Hskip.
    + apply IH.
    + destruct (str_in (name ++ "." ++ p) ps) eqn:Hin.
      * apply str_in_In in Hin.
        destruct (IH (acc ++ [(name ++ "." ++ p)%string]))
          as [[Hall Hrun]|[Hex Hrun]].
        -- left. split; [constructor; assumption|].
           rewrite Hrun, <- app_assoc. reflexivity.
        -- right. split; [apply Exists_cons_tl; exact Hex|exact Hrun].
      * right. split; [|reflexivity].
        apply Exists_cons_hd. intros H. apply str_in_In in H. congruence.
Qed.

Lemma modules_loop_spec ps : forall ms acc,
  (Forall (fun g => In g ps) (all_global_names ms)
   /\ modules_loop ps ms acc = Ok (acc ++ all_global_names ms))
  \/ (Exists (fun g => ~ In g ps) (all_global_names ms)
      /\ modules_loop ps ms acc = Err (AssertionError "")).
Proof.
  induction ms as [|[name m] ms IH]; intros acc.
  - left. split; [constructor|]. simpl. rewrite app_nil_r. reflexivity.
  - simpl. destruct (is_listed (class m)) eqn:Hl; [|apply IH].
    destruct (parameters_loop_spec ps name m (named_parameters m) acc)
      as [[Hall Hrun]|[Hex Hrun]]; rewrite Hrun; simpl.
    + destruct (IH (acc ++ global_names name m (named_parameters m)))
        as [[Hall' Hrun']|[Hex' Hrun']].
      * left. split; [apply Forall_app; split; assumption|].
        rewrite Hrun', <- app_assoc. reflexivity.
      * right. split; [apply Exists_app; right; exact Hex'|exact Hrun'].
    + right. split; [apply Exists_app; left; exact Hex|reflexivity].
Qed.

Lemma all_global_names_collected ms g :
  In g (all_global_names ms) <-> collected ms g.
Proof.
  unfold collected. induction ms as [|[name m] ms IH]; simpl.
  - split; [contradiction|]. intros (? & ? & ? & [] & _).
  - rewrite in_app_iff, IH. split.
    + intros [H|(n' & m' & p & Hin & Hrest)].
      * destruct (is_listed (class m)) eqn:Hl; [|contradiction].
        unfold global_names in H. apply in_map_iff in H.
        destruct H as (p & Hg & Hp). apply filter_In in Hp.
        destruct Hp as [Hp Hk]. unfold kept in Hk.
        apply negb_true_iff in Hk.
        exists name, m, p. repeat split; auto.
      * exists n', m', p. split; [right; exact Hin|exact Hrest].
    + intros (n' & m' & p & [Heq|Hin] & Hl & Hp & Hk & Hg).
      * injection Heq as -> ->. left. rewrite Hl.
        unfold global_names. apply in_map_iff. exists p. split; [auto|].
        apply filter_In. split; [exact Hp|].
        unfold kept. rewrite Hk. reflexivity.
      * right. exists n', m', p. repeat split; assumption.
Qed.

(** X17. The set [no_weight_decay] returns holds no name twice and holds
    exactly the names module_name.parameter_name of the parameters of the
    modules of a listed class, the parameters of a linear layer with weight
    in their name left out; each of them is a parameter of the model. *)
Theorem no_weight_decay_collects ps ms names :
  no_weight_decay ps ms = Ok names ->
  NoDup names
  /\ (forall g, In g names <-> collected ms g)
  /\ (forall g, In g names -> In g ps).
Proof.
  unfold no_weight_decay. intros H.
  destruct (modules_loop_spec ps ms []) as [[Hall Hrun]|[_ Hrun]];
    rewrite Hrun in H; simpl in H; [|discriminate].
  injection H as <-. split; [apply NoDup_nodup|].
  split; intros g.
  - rewrite nodup_In. apply all_global_names_collected.
  - rewrite nodup_In. rewrite Forall_forall in Hall. apply Hall.
Qed.

Lemma no_weight_decay_collects_witness :
  NoDup ["lin.bias"; "norm.weight"; "norm.bias"]
  /\ (forall g, In g ["lin.bias"; "norm.weight"; "norm.bias"]
                <-> collected linear_and_norm g)
  /\ (forall g, In g ["lin.bias"; "norm.weight"; "norm.bias"]
                -> In g linear_and_norm_parameters).
Proof.
  apply (@no_weight_decay_collects linear_and_norm_parameters
           linear_and_norm ["lin.bias"; "norm.weight"; "norm.bias"]).
  vm_compute. reflexivity.
Defined.

(** X18. [no_weight_decay] returns a set exactly when every name it is to
    collect is among [self.named_parameters()]; otherwise its assertion
    fails, and it raises nothing else. *)
Theorem no_weight_decay_assertion ps ms :
  ((forall g, collected ms g -> In g ps)
   /\ exists names, no_weight_decay ps ms = Ok names)
  \/ ((exists g, collected ms g /\ ~ In g ps)
      /\ no_weight_decay ps ms = Err (AssertionError "")).
Proof.
  unfold no_weight_decay.
  destruct (modules_loop_spec ps ms []) as [[Hall Hrun]|[Hex Hrun]];
    rewrite Hrun; simpl.
  - left. split; [|eexists; reflexivity].
    intros g Hg. apply all_global_names_collected in Hg.
    rewrite Forall_forall in Hall. apply Hall, Hg.
  - right. split; [|reflexivity].
    apply Exists_exists in Hex. destruct Hex as (g & Hg & Hn).
    exists g. split; [apply all_global_names_collected, Hg|exact Hn].
Qed.

End NoWeightDecayProperties.

(** ** The l = 0 coefficients of the node embedding *)

Module NodeEmbeddingProperties.
Import EquiformerV2Backbone EquiformerV2BackboneMethods NodeEmbedding.
Import EquiformerV2BackboneProofs.

Lemma slice_nil {A} a b : slice a b (@nil A) = [].
Proof. unfold slice. rewrite skipn_nil, firstn_nil. reflexivity. Qed.

(** A slice inside the row. *)
Lemma slice_inside {A} (row : list A) (a n : nat) :
  a + n <= length row ->
  slice (Z.of_nat a) (Z.of_nat a + Z.of_nat n) row = firstn n (skipn a row).
Proof.
  intros H. unfold slice, slice_bound.
  destruct (Z.ltb_spec (Z.of_nat a) 0); [lia|].
  destruct (Z.ltb_spec (Z.of_nat a + Z.of_nat n) 0); [lia|].
  rewrite !Z.min_r by lia.
  replace (Z.to_nat (Z.of_nat a + Z.of_nat n - Z.of_nat a)) with n by lia.
  rewrite Nat2Z.id. reflexivity.
Qed.

Lemma firstn_skipn_app {A} (l : list A) a b :
  firstn a l ++ firstn b (skipn a l) = firstn (a + b) l.
Proof.
  revert l. induction a as [|a IH]; intros l; [reflexivity|].
  destruct l as [|x l]; simpl.
  - rewrite firstn_nil. reflexivity.
  - rewrite IH. reflexivity.
Qed.

Lemma nth_map_slice {A} a b (embedded : list (list A)) n :
  nth n (map (slice a b) embedded) [] = slice a b (nth n embedded []).
Proof.
  rewrite <- (slice_nil a b) at 1. apply map_nth.
Qed.

Lemma index_select_rows {A} (P : A -> Prop) (t : list A) : forall idx rows,
  Forall P t -> index_select t idx = Ok rows -> Forall P rows.
Proof.
  unfold index_select.
  induction idx as [|i idx IH]; intros rows Ht H; simpl in H.
  - injection H as <-. constructor.
  - destruct (nth_error t i) as [a|] eqn:E; simpl in H; [|discriminate].
    destruct (sequence _) as [rest|e] eqn:Es; simpl in H; [|discriminate].
    injection H as <-. constructor.
    + rewrite Forall_forall in Ht. apply Ht. eapply nth_error_In, E.
    + apply IH; [exact Ht|reflexivity].
Qed.

Section Loop.
Variable A : Type.
Variable weight : list (list A).
Variable self : Self.
Variable atomic_numbers : list nat.
Variable embedded : list (list A).
Variable sc : nat.
Hypothesis channels : sphere_channels self = Z.of_nat sc.
Hypothesis looked_up : index_select weight atomic_numbers = Ok embedded.
Hypothesis resolutions :
  num_resolutions self = Z.of_nat (length (lmax_list self)).
Hypothesis width :
  Forall (fun row => length row = length (lmax_list self) * sc) embedded.

(** The run of the loop from resolution [i] on. *)
Lemma l0_loop_run : forall rest i offset_res,
  skipn i (lmax_list self) = rest ->
  i + length rest = length (lmax_list self) ->
  exists writes,
    l0_loop weight self atomic_numbers (seq i (length rest)) offset_res
      (Z.of_nat (i * sc))
    = (writes, Ok tt)
    /\ length writes = length rest
    /\ (forall k, k < length rest ->
          nth k (map (@coefficient A) writes) 0%Z
          = (offset_res
             + Reference.Zsum (map (fun lmax => (lmax + 1) ^ 2)
                                   (firstn k rest)))%Z)
    /\ (forall n,
          concat (map (fun w => nth n (value w) []) writes)
          = firstn (length rest * sc) (skipn (i * sc) (nth n embedded []))).
Proof.
  induction rest as [|lmax rest IH]; intros i offset_res Hrest Hlen.
  - exists []. simpl. repeat split; try reflexivity. intros k Hk. lia.
  - cbn [length seq l0_loop]. rewrite looked_up, bind_lift_ok, bind_emit.
    assert (Hi : nth_error (lmax_list self) i = Some lmax).
    { rewrite <- (firstn_skipn i (lmax_list self)), Hrest.
      rewrite nth_error_app2 by (rewrite length_firstn; lia).
      rewrite length_firstn, Nat.min_l by (simpl in Hlen; lia).
      rewrite Nat.sub_diag. reflexivity. }
    rewrite Hi, bind_lift_ok.
    assert (Hrest' : skipn (S i) (lmax_list self) = rest).
    { replace (S i) with (1 + i) by lia.
      rewrite <- skipn_skipn, Hrest. reflexivity. }
    simpl in Hlen.
    destruct (IH (S i) (offset_res + (lmax + 1) ^ 2)%Z Hrest' ltac:(lia))
      as (writes & Hrun & Hlength & Hcoef & Hval).
    replace (Z.of_nat i * Z.of_nat sc + sphere_channels self)%Z
      with (Z.of_nat (S i * sc)) by (rewrite channels; lia).
    rewrite Nat2Z.inj_mul.
    replace (Z.of_nat i * Z.of_nat sc + sphere_channels self)%Z
      with (Z.of_nat (S i * sc)) by (rewrite channels; lia).
    rewrite Hrun. eexists. split; [reflexivity|].
    split; [simpl; rewrite Hlength; reflexivity|]. split.
    + intros [|k] Hk; simpl.
      * unfold Reference.Zsum. simpl. lia.
      * rewrite Hcoef by lia. unfold Reference.Zsum. simpl. lia.
    + intros n. cbn [map concat value]. rewrite Hval.
      assert (Hrow : nth n embedded [] = []
                     \/ length (nth n embedded [])
                        = length (lmax_list self) * sc).
      { destruct (Nat.lt_ge_cases n (length embedded)) as [Hn|Hn].
        - right. rewrite Forall_forall in width. apply width, nth_In, Hn.
        - left. apply nth_overflow, Hn. }
      assert (Hslice :
        nth n (if (num_resolutions self =? 1)%Z
               then embedded
               else map (slice (Z.of_nat i * Z.of_nat sc)
                               (Z.of_nat (S i * sc))) embedded) []
        = firstn sc (skipn (i * sc) (nth n embedded []))).
      { destruct Hrow as [Hrow|Hrow].
        - destruct (num_resolutions self =? 1)%Z;
            [|rewrite nth_map_slice]; rewrite Hrow;
            rewrite ?slice_nil, skipn_nil, firstn_nil; reflexivity.
        - destruct (Z.eqb_spec (num_resolutions self) 1) as [One|Many].
          + assert (length (lmax_list self) = 1) by lia.
            assert (i = 0) by lia. subst i.
            simpl. rewrite firstn_all2 by lia. reflexivity.
          + rewrite nth_map_slice.
            replace (Z.of_nat (S i * sc))
              with (Z.of_nat (i * sc) + Z.of_nat sc)%Z by lia.
            rewrite <- Nat2Z.inj_mul.
            apply slice_inside. rewrite Hrow. nia. }
      rewrite Hslice.
      replace (S i * sc) with (sc + i * sc) by lia.
      rewrite <- skipn_skipn, firstn_skipn_app. reflexivity.
Qed.
End Loop.

(** X19. In a backbone the constructor returned, whose embedding has
    [max_num_elements] rows of [sphere_channels_all] channels, the loop that
    initializes the l = 0 coefficients never fails once no atomic number
    reaches [max_num_elements]: it makes one assignment per resolution, the
    one of resolution k at the coefficient that follows the (lmax + 1)^2
    coefficients of each resolution before it, and the channels assigned
    for a node, put side by side, are the embedding of its atomic number. *)
Theorem l0_coefficients_tile_the_embedding {A} rt kw self
    (weight : list (list A)) atomic_numbers :
  outcome (__init__ rt kw) = Ok self ->
  (0 <= sphere_channels self)%Z ->
  Z.of_nat (length weight) = max_num_elements self ->
  Forall (fun row => Z.of_nat (length row) = sphere_channels_all self)
         weight ->
  Forall (fun z => (Z.of_nat z < max_num_elements self)%Z) atomic_numbers ->
  let run := init_l0_coefficients weight self atomic_numbers in
  outcome run = Ok tt
  /\ length (trace_of run) = length (lmax_list self)
  /\ (forall k, k < length (lmax_list self) ->
        nth k (map (@coefficient A) (trace_of run)) 0%Z
        = Reference.Zsum (map (fun lmax => (lmax + 1) ^ 2)%Z
                              (firstn k (lmax_list self))))
  /\ (forall n, n < length atomic_numbers ->
        concat (map (fun w => nth n (value w) []) (trace_of run))
        = nth (nth n atomic_numbers 0) weight []).
Proof.
  intros Hout Hsc Hrows Hwidth Hguard run.
  destruct (EquiformerV2BackboneProperties.init_attributes rt kw Hout)
    as (_ & _ & _ & _ & _ & _ & _ & _ & _ & _ & _ & _ & Hres & Hall & _).
  assert (Hin : Forall (fun i => i < length weight) atomic_numbers).
  { eapply Forall_impl; [|exact Hguard]. intros z Hz. simpl in Hz. lia. }
  pose proof (GraphParallelProperties.index_select_in_range weight [] Hin) as Hsel.
  set (embedded := map (fun i => nth i weight []) atomic_numbers) in *.
  assert (Hchan : sphere_channels self
                  = Z.of_nat (Z.to_nat (sphere_channels self))) by lia.
  assert (Hw : Forall (fun row => length row
                                  = length (lmax_list self)
                                    * Z.to_nat (sphere_channels self))
                      embedded).
  { apply (@index_select_rows _ _ weight atomic_numbers embedded); [|exact Hsel].
    eapply Forall_impl; [|exact Hwidth]. intros row Hrow. simpl in Hrow.
    rewrite Hall, Hres in Hrow. nia. }
  destruct (@l0_loop_run A weight self atomic_numbers embedded
              (Z.to_nat (sphere_channels self)) Hchan Hsel Hres Hw
              (lmax_list self) 0 0%Z eq_refl eq_refl)
    as (writes & Hrun & Hlength & Hcoef & Hval).
  assert (Erun : run = (writes, Ok tt)).
  { unfold run, init_l0_coefficients. rewrite Hres, Nat2Z.id. exact Hrun. }
  rewrite Erun. cbn [outcome trace_of fst snd].
  split; [reflexivity|]. split; [exact Hlength|]. split.
  - intros k Hk. rewrite Hcoef by exact Hk. lia.
  - intros n Hn. rewrite Hval. simpl skipn.
    assert (Hrow : nth n embedded [] = nth (nth n atomic_numbers 0) weight []).
    { unfold embedded.
      rewrite (nth_indep _ [] ((fun i => nth i weight []) 0))
        by (rewrite length_map; exact Hn).
      apply (map_nth (fun i => nth i weight [])). }
    rewrite firstn_all2; [exact Hrow|].
    rewrite Forall_forall in Hw. rewrite (Hw (nth n embedded [])); [lia|].
    apply nth_In. unfold embedded. rewrite length_map. exact Hn.
Qed.

Lemma l0_coefficients_tile_the_embedding_witness :
  match outcome (__init__ BackboneExamples.with_e3nn two_resolutions) with
  | Ok self =>
      let run := init_l0_coefficients four_channels self [2; 0] in
      outcome run = Ok tt
      /\ length (trace_of run) = length (lmax_list self)
      /\ (forall k, k < length (lmax_list self) ->
            nth k (map (@coefficient Z) (trace_of run)) 0%Z
            = Reference.Zsum (map (fun lmax => (lmax + 1) ^ 2)%Z
                                  (firstn k (lmax_list self))))
      /\ (forall n, n < length [2; 0] ->
            concat (map (fun w => nth n (value w) []) (trace_of run))
            = nth (nth n [2; 0] 0) four_channels [])
  | Err _ => False
  end.
Proof.
  destruct (outcome (__init__ BackboneExamples.with_e3nn two_resolutions))
    as [self|e] eqn:Hout.
  - pose proof Hout as Hself. vm_compute in Hself. injection Hself as Hself.
    apply (@l0_coefficients_tile_the_embedding Z BackboneExamples.with_e3nn
             two_resolutions self four_channels [2; 0] Hout);
      rewrite <- Hself.
    + vm_compute. discriminate.
    + reflexivity.
    + repeat constructor.
    + repeat (constructor; [reflexivity|]). constructor.
  - vm_compute in Hout. discriminate Hout.
Defined.

(** With two resolutions of two channels each, the first two channels of
    the embedding go to coefficient 0 and the last two to coefficient 4. *)
Example two_resolutions_of_two_channels :
  match outcome (__init__ BackboneExamples.with_e3nn two_resolutions) with
  | Ok self =>
      init_l0_coefficients four_channels self [2; 0]
      = ([{| coefficient := 0; value := [[30; 31]; [10; 11]] |};
          {| coefficient := 4; value := [[32; 33]; [12; 13]] |}]%Z, Ok tt)
  | Err _ => False
  end.
Proof. vm_compute. reflexivity. Qed.

End NodeEmbeddingProperties.
